(** * TradeBot: indicator engine, signal classifier and scan orchestrator

    Shallow embedding of [Tradebot2.py].  A pandas [DataFrame] is an index
    together with a finite map from column names to columns; a column
    ([Series]) is a list of floating values.  Floating values are modelled
    as exact rationals extended with the IEEE special values (both
    infinities and NaN): rounding and the sign of zero are abstracted away,
    division by zero and NaN propagation are kept, since the code relies on
    them (RSI saturation, warm-up rows, [dropna]). *)

From Stdlib Require Import QArith Qcanon Lqa.
From stdpp Require Import gmap strings list fin_maps numbers pretty.

Local Open Scope Qc_scope.

(** ** Floating values *)

Inductive float : Type :=
  | Fin (q : Qc)
  | PInf
  | NInf
  | NaN.

Global Instance float_eq_dec : EqDecision float.
Proof. solve_decision. Defined.

Global Instance float_inhabited : Inhabited float := populate NaN.

(** Integer literals of the source, as rationals and as floating values. *)
Definition Qz (n : Z) : Qc := Q2Qc (inject_Z n).

Definition F (n : Z) : float := Fin (Qz n).

(** [x == x] in Python: false exactly on NaN; pandas [notna]. *)
Definition notna (x : float) : bool :=
  match x with NaN => false | _ => true end.

Definition fopp (x : float) : float :=
  match x with
  | Fin a => Fin (- a)
  | PInf => NInf
  | NInf => PInf
  | NaN => NaN
  end.

Definition fadd (x y : float) : float :=
  match x, y with
  | NaN, _ | _, NaN => NaN
  | Fin a, Fin b => Fin (a + b)
  | PInf, NInf | NInf, PInf => NaN
  | PInf, _ | _, PInf => PInf
  | NInf, _ | _, NInf => NInf
  end.

Definition fsub (x y : float) : float := fadd x (fopp y).

(** Sign of a rational as an infinity selector. *)
Definition inf_of_sign (pos : bool) : float := if pos then PInf else NInf.

Definition fmul (x y : float) : float :=
  match x, y with
  | NaN, _ | _, NaN => NaN
  | Fin a, Fin b => Fin (a * b)
  | Fin a, PInf | PInf, Fin a =>
      if decide (a = 0) then NaN else inf_of_sign (bool_decide (0 < a))
  | Fin a, NInf | NInf, Fin a =>
      if decide (a = 0) then NaN else inf_of_sign (bool_decide (a < 0))
  | PInf, PInf | NInf, NInf => PInf
  | PInf, NInf | NInf, PInf => NInf
  end.

(** Division follows IEEE: a non-zero value over zero is infinite, zero over
    zero and infinity over infinity are NaN, finite over infinite is zero. *)
Definition fdiv (x y : float) : float :=
  match x, y with
  | NaN, _ | _, NaN => NaN
  | Fin a, Fin b =>
      if decide (b = 0) then
        if decide (a = 0) then NaN else inf_of_sign (bool_decide (0 < a))
      else Fin (a / b)
  | Fin _, PInf | Fin _, NInf => Fin 0
  | PInf, Fin b => inf_of_sign (bool_decide (0 ≤ b))
  | NInf, Fin b => inf_of_sign (bool_decide (b < 0))
  | PInf, PInf | PInf, NInf | NInf, PInf | NInf, NInf => NaN
  end.

(** Comparisons: anything compared with NaN is false. *)
Definition flt (x y : float) : bool :=
  match x, y with
  | NaN, _ | _, NaN => false
  | Fin a, Fin b => bool_decide (a < b)
  | NInf, NInf | PInf, _ => false
  | NInf, _ => true
  | Fin _, PInf => true
  | Fin _, NInf => false
  end.

Definition fgt (x y : float) : bool := flt y x.

(** [x != y] on floats: NaN differs from everything, itself included. *)
Definition fne (x y : float) : bool :=
  match x, y with
  | NaN, _ | _, NaN => true
  | _, _ => bool_decide (x ≠ y)
  end.

(** ** pandas operations on a column *)

(** [Series.diff()]: first element undefined, then [s[i] - s[i-1]]. *)
Definition diff (s : list float) : list float :=
  match s with
  | [] => []
  | _ :: rest => NaN :: zip_with fsub rest s
  end.

(** [Series.clip(lower=lo)] and [Series.clip(upper=hi)]: NaN is kept. *)
Definition clip_lower (lo : float) (s : list float) : list float :=
  (λ x, if flt x lo then lo else x) <$> s.

Definition clip_upper (hi : float) (s : list float) : list float :=
  (λ x, if fgt x hi then hi else x) <$> s.

Definition fsum (l : list float) : float := foldl fadd (F 0) l.

(** Mean of the observations (non-NaN values) of a window, undefined when
    there are fewer than [minp] of them. *)
Definition window_mean (minp : nat) (win : list float) : float :=
  let obs := filter (λ x, notna x = true) win in
  if decide (length obs < minp)%nat then NaN
  else fdiv (fsum obs) (F (Z.of_nat (length obs))).

(** Bars [i-w+1 .. i] of the series, fewer at its start. *)
Definition rolling_window (w : nat) (s : list float) (i : nat) : list float :=
  drop (S i - w) (take (S i) s).

(** [Series.rolling(window=w).mean()], [min_periods] defaulting to [w]. *)
Definition rolling_mean (w : nat) (s : list float) : list float :=
  imap (λ i _, window_mean w (rolling_window w s i)) s.

(** [Series.ewm(span=..., adjust=...).mean()]. pandas turns the span into a
    centre of mass [(span-1)/2] and the latter into [alpha = 1/(1+com)]. *)
Definition alpha_of_span (span : Z) : Qc :=
  1 / (1 + (Qz span - 1) / 2).

(** One iteration of the pandas loop: [weighted] is the running average and
    [old_wt] the weight it carries ([ignore_na=False], unit time steps). *)
Definition ewm_step (adjust : bool) (alpha : Qc)
    (st : float * Qc) (cur : float) : float * Qc :=
  let '(weighted, old_wt) := st in
  let old_wt_factor := 1 - alpha in
  let new_wt := if adjust then 1 else alpha in
  if notna weighted then
    let old_wt := old_wt * old_wt_factor in
    if notna cur then
      let weighted :=
        if fne weighted cur then
          fdiv (fadd (fmul (Fin old_wt) weighted) (fmul (Fin new_wt) cur))
               (Fin (old_wt + new_wt))
        else weighted in
      (weighted, if adjust then old_wt + new_wt else 1)
    else (weighted, old_wt)
  else if notna cur then (cur, old_wt)
  else (weighted, old_wt).

Fixpoint ewm_loop (adjust : bool) (alpha : Qc) (st : float * Qc)
    (vals : list float) : list float :=
  match vals with
  | [] => []
  | cur :: rest =>
      let st' := ewm_step adjust alpha st cur in
      st'.1 :: ewm_loop adjust alpha st' rest
  end.

Definition ewm_mean (adjust : bool) (span : Z) (vals : list float) : list float :=
  match vals with
  | [] => []
  | v0 :: rest => v0 :: ewm_loop adjust (alpha_of_span span) (v0, 1) rest
  end.

(** ** Data frames *)

Record DataFrame : Type := mkDF {
  index : list Z;
  columns : gmap string (list float)
}.

(** [df[c]]: [None] stands for the [KeyError] of a missing column. *)
Definition getitem (df : DataFrame) (c : string) : option (list float) :=
  columns df !! c.

(** [df[c] = s], for a column aligned with the frame's index. *)
Definition setitem (df : DataFrame) (c : string) (s : list float) : DataFrame :=
  mkDF (index df) (<[c := s]> (columns df)).

(** [df.empty]: no row or no column. *)
Definition empty (df : DataFrame) : bool :=
  bool_decide (index df = []) || bool_decide (columns df = ∅).

Fixpoint mask_select {A} (mask : list bool) (l : list A) : list A :=
  match mask, l with
  | b :: mask', x :: l' =>
      if b then x :: mask_select mask' l' else mask_select mask' l'
  | _, _ => []
  end.

(** Row [i] has a value in each of the given columns. *)
Definition row_notna (cols : list (list float)) (i : nat) : bool :=
  forallb (λ c : list float, notna (c !!! i)) cols.

(** [df.dropna(subset=...)]: keeps the rows without NaN in the subset. *)
Definition dropna (subset : list string) (df : DataFrame) : option DataFrame :=
  cols ← mapM (getitem df) subset;
  let mask := row_notna cols <$> seq 0 (length (index df)) in
  Some (mkDF (mask_select mask (index df)) (mask_select mask <$> columns df)).

(** [df.iloc[-1]]: the last row, as a map from column names to values;
    [None] stands for the [IndexError] of a frame without rows. *)
Definition iloc_last (df : DataFrame) : option (gmap string float) :=
  match index df with
  | [] => None
  | _ :: _ => Some (omap last (columns df))
  end.

(** ** The program *)

(** The three classifications, the strings ["BUY"], ["SELL"] and ["HOLD"]. *)
Inductive Signal : Type := BUY | SELL | HOLD.

Global Instance Signal_eq_dec : EqDecision Signal.
Proof. solve_decision. Defined.

Definition compute_rsi (series : list float) (period : nat) : list float :=
  let delta := diff series in
  let gain := clip_lower (F 0) delta in
  let loss := fmul (F (-1)) <$> clip_upper (F 0) delta in
  let avg_gain := rolling_mean period gain in
  let avg_loss := rolling_mean period loss in
  let rs := zip_with fdiv avg_gain avg_loss in
  let rsi := (λ r, fsub (F 100) (fdiv (F 100) (fadd (F 1) r))) <$> rs in
  rsi.

Definition compute_macd (series : list float) : list float * list float :=
  let exp1 := ewm_mean false 12 series in
  let exp2 := ewm_mean false 26 series in
  let macd := zip_with fsub exp1 exp2 in
  let signal := ewm_mean false 9 macd in
  (macd, signal).

Definition calculate_indicators (df : DataFrame) : option DataFrame :=
  close ← getitem df "Close";
  let df := setitem df "EMA" (ewm_mean true 20 close) in
  close ← getitem df "Close";
  let df := setitem df "SMA" (rolling_mean 10 close) in
  close ← getitem df "Close";
  let df := setitem df "RSI" (compute_rsi close 14) in
  close ← getitem df "Close";
  let '(macd, signal) := compute_macd close in
  let df := setitem df "MACD" macd in
  let df := setitem df "Signal" signal in
  Some df.

Definition get_signals (df : DataFrame) : option (gmap string Signal) :=
  df_clean ← dropna ["RSI"; "MACD"; "Signal"; "EMA"; "SMA"; "Close"] df;
  if empty df_clean then
    Some (<["SMA" := HOLD]> (<["EMA" := HOLD]> (<["MACD" := HOLD]> {["RSI" := HOLD]})))
  else
    latest ← iloc_last df_clean;
    let signals : gmap string Signal := ∅ in
    rsi ← latest !! "RSI";
    let signals :=
      <["RSI" := if flt rsi (F 30) then BUY
                 else if fgt rsi (F 70) then SELL else HOLD]> signals in
    macd ← latest !! "MACD";
    signal ← latest !! "Signal";
    let signals :=
      <["MACD" := if fgt macd signal then BUY
                  else if flt macd signal then SELL else HOLD]> signals in
    close ← latest !! "Close";
    ema ← latest !! "EMA";
    let signals := <["EMA" := if fgt close ema then BUY else SELL]> signals in
    sma ← latest !! "SMA";
    let signals := <["SMA" := if fgt close sma then BUY else SELL]> signals in
    Some signals.

(** [sum(1 for v in signals.values() if v == "BUY")] *)
Definition buy_count (signals : gmap string Signal) : nat :=
  sum_list ((λ _, 1%nat) <$> filter (λ v, v = BUY) (map_to_list signals).*2).

(** ["BUY" if buy_count >= 3 else "SELL" if buy_count <= 1 else "HOLD"] *)
Definition overall (buy_count : nat) : Signal :=
  if decide (3 ≤ buy_count)%nat then BUY
  else if decide (buy_count ≤ 1)%nat then SELL else HOLD.

Definition tickers : list string :=
  ["AAPL"; "GOOG"; "MSFT"; "AMZN"; "META"; "TSLA"; "NVDA"; "JPM"; "NFLX"; "BRK-B"].

Definition newline : string := String (Ascii.ascii_of_nat 10) EmptyString.

Definition no_matches_report : string := "No strong BUY signals found.".

Section Fetcher.

(** [get_alpha_vantage_data]: the remote market-data service.  [None] is
    any failure (quota, network, malformed payload), all caught there. *)
Variable get_alpha_vantage_data : string → option DataFrame.

(** [update_stock_data]: [None] when the worker thread dies on an uncaught
    exception; [inl tt] is the error event, [inr] carries the label update,
    the overall recommendation and the frame sent to the chart. *)
Definition update_stock_data (symbol : string)
    : option (unit + gmap string Signal * Signal * DataFrame) :=
  match get_alpha_vantage_data symbol with
  | None => Some (inl ())
  | Some df =>
      if empty df then Some (inl ())
      else
        df ← calculate_indicators df;
        signals ← get_signals df;
        let buy_count := buy_count signals in
        Some (inr (signals, overall buy_count, df))
  end.

(** Body of the [for symbol in tickers] loop of [scan_market], as a
    transformer of the accumulator [matches]; [None] when an exception
    escapes.  The [time.sleep(15)] between tickers changes no value. *)
Definition scan_body (matches : list string) (symbol : string)
    : option (list string) :=
  match get_alpha_vantage_data symbol with
  | None => Some matches
  | Some df =>
      if empty df then Some matches
      else
        df ← calculate_indicators df;
        signals ← get_signals df;
        let buy_count := buy_count signals in
        if decide (3 ≤ buy_count)%nat then
          Some (matches ++
                [symbol +:+ ": " +:+ pretty buy_count +:+ "/4 indicators say BUY"])
        else Some matches
  end.

Fixpoint scan_loop (matches : list string) (symbols : list string)
    : option (list string) :=
  match symbols with
  | [] => Some matches
  | symbol :: rest =>
      matches ← scan_body matches symbol;
      scan_loop matches rest
  end.

(** The scan over a watch-list: the text sent to [update_scan_results]. *)
Definition scan_list (symbols : list string) : option string :=
  matches ← scan_loop [] symbols;
  Some (match matches with
        | [] => no_matches_report
        | _ => String.concat newline matches
        end).

Definition scan_market : option string := scan_list tickers.

End Fetcher.

(** ** The indicators as the specification words them

    These definitions follow the formulas of the specification, bar by bar,
    on a series of finite close prices; the theorems below compare them with
    what the code computes. *)

Definition Qc_sum (l : list Qc) : Qc := foldr Qcplus 0 l.

Definition qmax (a b : Qc) : Qc := if decide (a < b) then b else a.

(** Close price of bar [k] (zero outside the series). *)
Definition price (cs : list Qc) (k : nat) : Qc := nth k cs 0.

Definition spec_delta (cs : list Qc) (k : nat) : Qc :=
  price cs k - price cs (k - 1).

(** Trailing simple mean, over the [period] bars ending at [t], of the
    gains [max(delta,0)] and of the losses [max(-delta,0)]. *)
Definition spec_avg_gain (cs : list Qc) (period t : nat) : Qc :=
  Qc_sum ((λ k, qmax (spec_delta cs k) 0) <$> seq (S t - period) period)
  / Qz (Z.of_nat period).

Definition spec_avg_loss (cs : list Qc) (period t : nat) : Qc :=
  Qc_sum ((λ k, qmax (- spec_delta cs k) 0) <$> seq (S t - period) period)
  / Qz (Z.of_nat period).

(** [RSI = 100 - 100/(1+RS)] with [RS = avgGain/avgLoss]: saturated at 100
    when there is no loss, undefined when there is no gain either. *)
Definition spec_rsi (avg_gain avg_loss : Qc) : float :=
  if decide (avg_loss = 0) then
    if decide (avg_gain = 0) then NaN else F 100
  else Fin (Qz 100 - Qz 100 / (1 + avg_gain / avg_loss)).

(** Recursive (streaming) EMA: [value[0] = price[0]],
    [value[t] = alpha * price[t] + (1 - alpha) * value[t-1]]. *)
Fixpoint spec_ema_rec (alpha : Qc) (p : nat → Qc) (t : nat) : Qc :=
  match t with
  | O => p O
  | S t' => alpha * p t + (1 - alpha) * spec_ema_rec alpha p t'
  end.




(** The per-indicator rules on one row of the frame. *)
Definition spec_rsi_signal (rsi : float) : Signal :=
  if flt rsi (F 30) then BUY else if fgt rsi (F 70) then SELL else HOLD.

Definition spec_macd_signal (macd signal : float) : Signal :=
  if fgt macd signal then BUY else if flt macd signal then SELL else HOLD.

Definition spec_above_signal (close avg : float) : Signal :=
  if fgt close avg then BUY else SELL.

Definition signal_set (rsi macd ema sma : Signal) : gmap string Signal :=
  <["SMA" := sma]> (<["EMA" := ema]> (<["MACD" := macd]> {["RSI" := rsi]})).

(** Value of column [c] at row [i] (NaN when there is none). *)
Definition cell (df : DataFrame) (c : string) (i : nat) : float :=
  default [] (columns df !! c) !!! i.

(** Row [i] has RSI, MACD, Signal, EMA, SMA and Close all defined. *)
Definition row_defined (df : DataFrame) (i : nat) : Prop :=
  ∀ c, c ∈ ["RSI"; "MACD"; "Signal"; "EMA"; "SMA"; "Close"] →
       notna (cell df c i) = true.

(** Every column has one value per row. *)
Definition aligned (df : DataFrame) : Prop :=
  ∀ c s, columns df !! c = Some s → length s = length (index df).





(** A fetched frame: a Close column with one value per bar. *)
Definition price_frame (df : DataFrame) : Prop :=
  ∃ close, getitem df "Close" = Some close
           ∧ length close = length (index df).

(** Number of BUY signals of a fetched frame. *)
Definition frame_buy_count (df : DataFrame) : option nat :=
  df ← calculate_indicators df;
  signals ← get_signals df;
  Some (buy_count signals).

(** Number of BUY signals of a ticker; [None] when its fetch fails or
    returns no bar. *)
Definition ticker_buy_count (fetch : string → option DataFrame)
    (symbol : string) : option nat :=
  df ← fetch symbol;
  if empty df then None else frame_buy_count df.

(** The report line of a ticker, when it has one. *)
Definition ticker_line (fetch : string → option DataFrame)
    (symbol : string) : option string :=
  n ← ticker_buy_count fetch symbol;
  if decide (3 ≤ n)%nat
  then Some (symbol +:+ ": " +:+ pretty n +:+ "/4 indicators say BUY")
  else None.

(** Bar-to-bar differences of a series of finite closes, from bar 1 on. *)
Definition deltas (cs : list Qc) : list Qc := zip_with Qcminus (tail cs) cs.

(** ** Sample inputs *)

(** The 21 ascending closes 10, 11, ..., 30. *)
Definition prices_10_30 : list Qc := Qz <$> seqZ 10 21.

Definition closes_10_30 : list float := Fin <$> prices_10_30.

Definition frame_10_30 : DataFrame :=
  mkDF (seqZ 0 21) {["Close" := closes_10_30]}.

(** 16 strictly decreasing closes 40, 39, ..., 25. *)
Definition prices_40_25 : list Qc := (λ k, Qz (40 - k)) <$> seqZ 0 16.

Definition frame_40_25 : DataFrame :=
  mkDF (seqZ 0 16) {["Close" := Fin <$> prices_40_25]}.

(** A market where ["UP"] has the ascending closes, ["DOWN"] the
    decreasing ones, ["NONE"] no bar and every other ticker fails. *)
Definition sample_fetch (symbol : string) : option DataFrame :=
  if decide (symbol = "UP") then Some frame_10_30
  else if decide (symbol = "DOWN") then Some frame_40_25
  else if decide (symbol = "NONE") then Some (mkDF [] {["Close" := []]})
  else None.

(** A market where every fetch fails. *)
Definition failing_fetch (symbol : string) : option DataFrame := None.

(** Two fetched bars with their five price columns. *)
Definition frame_ohlcv : DataFrame :=
  mkDF [0; 1]%Z
    (list_to_map
       [("Open", [F 10; F 11]); ("High", [F 12; F 13]); ("Low", [F 9; F 10]);
        ("Close", [F 11; F 12]); ("Volume", [F 1000; F 1500])]).

(** A three-bar indicator frame whose last bar has no RSI. *)
Definition frame_three_bars : DataFrame :=
  mkDF [0; 1; 2]%Z
    (list_to_map
       [("Close", [F 10; F 11; F 12]); ("RSI", [NaN; F 20; NaN]);
        ("MACD", [F 1; F 1; F 1]); ("Signal", [F 0; F 2; F 0]);
        ("EMA", [F 9; F 11; F 9]); ("SMA", [NaN; F 10; F 10])]).

(** A two-bar indicator frame still in warm-up. *)
Definition frame_warm_up : DataFrame :=
  mkDF [0; 1]%Z
    (list_to_map
       [("Close", [F 10; F 11]); ("RSI", [NaN; NaN]);
        ("MACD", [F 0; F 1]); ("Signal", [F 0; F 1]);
        ("EMA", [F 10; F 11]); ("SMA", [NaN; NaN])]).

(** ** The first script, [tradebot.py]

    It downloads a week of hourly closes and prints one signal from the
    latest close and the mean of the last three. *)



(** ** More series shapes *)




(** ** More sample inputs and helpers of the statements *)

(** Twenty bars at the same close. *)
Definition frame_flat : DataFrame :=
  mkDF (seqZ 0 20) {["Close" := Fin <$> replicate 20 (Qz 7)]}.

(** Last character of a string. *)
Fixpoint last_char (s : string) : option Ascii.ascii :=
  match s with
  | EmptyString => None
  | String c EmptyString => Some c
  | String _ s' => last_char s'
  end.






(** The letter Y, on which every report line ends. *)
Definition char_Y : Ascii.ascii := Ascii.ascii_of_nat 89.


(** * Properties *)

(** ** Rationals and floating values *)

Lemma Qc_eq_Qeq (x y : Qc) : x = y ↔ (this x == this y)%Q.
Proof. split; [by intros -> | apply Qc_is_canon]. Qed.

(** Linear arithmetic on [Qc], through the underlying [Q]. *)
Ltac qc_lra :=
  repeat match goal with
  | H : @eq Qc _ _ |- _ => apply Qc_eq_Qeq in H
  | H : ¬ @eq Qc _ _ |- _ => rewrite Qc_eq_Qeq in H
  | |- @eq Qc _ _ => apply Qc_eq_Qeq
  | |- ¬ @eq Qc _ _ => rewrite Qc_eq_Qeq
  end;
  unfold Qz, Qcle, Qclt, Qcminus, Qcplus, Qcopp, Qcmult, Q2Qc in *;
  cbn [this] in *;
  repeat match goal with
  | H : context [Qred _] |- _ => rewrite Qred_correct in H
  | |- context [Qred _] => rewrite Qred_correct
  end;
  first [lra | unfold inject_Z in *; lra].

Lemma Qz_pos (n : Z) : (0 < n)%Z → 0 < Qz n.
Proof.
  intros Hn. unfold Qclt, Qz. simpl. rewrite !Qred_correct.
  unfold Qlt. simpl. lia.
Qed.

Lemma Qz_nonzero (n : Z) : (0 < n)%Z → Qz n ≠ 0.
Proof. intros Hn Heq. pose proof (Qz_pos n Hn) as Hp. rewrite Heq in Hp. by apply Qclt_not_eq in Hp. Qed.

Lemma Qc_sum_nonneg (l : list Qc) : Forall (λ x, 0 ≤ x) l → 0 ≤ Qc_sum l.
Proof.
  induction 1 as [|x l Hx _ IH]; simpl; [done|].
  replace 0 with (0 + 0) by ring. by apply Qcplus_le_compat.
Qed.




Lemma fsum_from (a : Qc) (l : list Qc) :
  foldl fadd (Fin a) (Fin <$> l) = Fin (a + Qc_sum l).
Proof.
  revert a. induction l as [|x l IH]; intros a; simpl.
  - f_equal. ring.
  - rewrite IH. f_equal. ring.
Qed.

Lemma fsum_Fin (l : list Qc) : fsum (Fin <$> l) = Fin (Qc_sum l).
Proof.
  unfold fsum, F. change (Qz 0) with 0. rewrite fsum_from. f_equal. ring.
Qed.

(** ** Columns keep their length *)

Lemma length_diff (s : list float) : length (diff s) = length s.
Proof.
  destruct s as [|x s]; [done|]. simpl. rewrite length_zip_with. simpl. lia.
Qed.

Lemma length_rolling_mean (w : nat) (s : list float) :
  length (rolling_mean w s) = length s.
Proof. unfold rolling_mean. by rewrite length_imap. Qed.

Lemma length_ewm_loop adjust alpha st (vals : list float) :
  length (ewm_loop adjust alpha st vals) = length vals.
Proof. revert st. induction vals as [|v vals IH]; intros st; simpl; [done|]. by rewrite IH. Qed.

Lemma length_ewm_mean adjust span (vals : list float) :
  length (ewm_mean adjust span vals) = length vals.
Proof. destruct vals; simpl; [done|]. by rewrite length_ewm_loop. Qed.

Lemma length_compute_rsi (series : list float) (period : nat) :
  length (compute_rsi series period) = length series.
Proof.
  unfold compute_rsi, clip_lower, clip_upper.
  rewrite length_fmap, length_zip_with, !length_rolling_mean, !length_fmap, length_diff.
  lia.
Qed.

Lemma length_compute_macd (series : list float) :
  length (compute_macd series).1 = length series
  ∧ length (compute_macd series).2 = length series.
Proof.
  unfold compute_macd. simpl.
  rewrite !length_ewm_mean, length_zip_with, !length_ewm_mean. lia.
Qed.

(** ** Rolling means *)

Lemma filter_notna_Fin (l : list Qc) :
  filter (λ x, notna x = true) (Fin <$> l) = Fin <$> l.
Proof.
  induction l as [|x l IH]; [done|].
  rewrite fmap_cons, filter_cons_True by done. by rewrite IH.
Qed.

Lemma window_mean_Fin (w : nat) (l : list Qc) :
  (w ≤ length l)%nat → (0 < length l)%nat →
  window_mean w (Fin <$> l) = Fin (Qc_sum l / Qz (Z.of_nat (length l))).
Proof.
  intros Hw Hl. unfold window_mean. cbv zeta.
  rewrite filter_notna_Fin, length_fmap, fsum_Fin.
  rewrite decide_False by lia. unfold F, fdiv.
  rewrite decide_False; [done|]. apply Qz_nonzero. lia.
Qed.


Lemma window_mean_NaN_head (w : nat) (win : list float) :
  (length win < w)%nat → window_mean w (NaN :: win) = NaN.
Proof.
  intros Hle. unfold window_mean. cbv zeta.
  rewrite filter_cons_False by done.
  rewrite decide_True; [done|].
  pose proof (length_filter (λ x, notna x = true) win). lia.
Qed.

Lemma lookup_rolling_mean (w : nat) (s : list float) (i : nat) :
  (i < length s)%nat →
  rolling_mean w s !! i = Some (window_mean w (rolling_window w s i)).
Proof.
  intros Hi. unfold rolling_mean. rewrite list_lookup_imap.
  destruct (lookup_lt_is_Some_2 s i Hi) as [x ->]. done.
Qed.


(** The same for a series whose first bar is undefined, once the window
    has moved past it. *)
Lemma rolling_window_NaN_Fin (w : nat) (l : list Qc) (t : nat) :
  (w ≤ t)%nat →
  rolling_window w (NaN :: (Fin <$> l)) t = Fin <$> drop (t - w) (take t l).
Proof.
  intros Hw. unfold rolling_window.
  replace (S t - w)%nat with (S (t - w)) by lia. simpl.
  by rewrite <-fmap_take, <-fmap_drop.
Qed.

Lemma rolling_window_NaN_early (w : nat) (s : list float) (t : nat) :
  (t < w)%nat →
  window_mean w (rolling_window w (NaN :: s) t) = NaN.
Proof.
  intros Hw. unfold rolling_window.
  replace (S t - w)%nat with 0%nat by lia. simpl.
  apply window_mean_NaN_head. rewrite length_take. lia.
Qed.

(** ** RSI on a series of finite closes *)

Lemma qmax_nonneg (d : Qc) : 0 ≤ qmax d 0.
Proof. unfold qmax. case_decide; qc_lra. Qed.

Lemma loss_qmax (d : Qc) :
  Qz (-1) * (if bool_decide (Qz 0 < d) then Qz 0 else d) = qmax (- d) 0.
Proof. unfold qmax. case_bool_decide; case_decide; qc_lra. Qed.

Lemma zip_with_fsub_Fin (a b : list Qc) :
  zip_with fsub (Fin <$> a) (Fin <$> b) = Fin <$> zip_with Qcminus a b.
Proof.
  revert b. induction a as [|x a IH]; intros [|y b]; simpl; [done..|].
  by rewrite IH.
Qed.

Lemma diff_Fin (c : Qc) (cs : list Qc) :
  diff (Fin <$> c :: cs) = NaN :: (Fin <$> deltas (c :: cs)).
Proof. unfold diff, deltas. simpl. f_equal. apply (zip_with_fsub_Fin cs (c :: cs)). Qed.

Lemma gain_Fin (c : Qc) (cs : list Qc) :
  clip_lower (F 0) (diff (Fin <$> c :: cs))
  = NaN :: (Fin <$> ((λ d, qmax d 0) <$> deltas (c :: cs))).
Proof.
  rewrite diff_Fin. unfold clip_lower. simpl. f_equal.
  rewrite <-!list_fmap_compose. apply list_fmap_ext. intros _ d _. simpl.
  unfold qmax. change (Qz 0) with 0. case_bool_decide; case_decide; done.
Qed.

Lemma loss_Fin (c : Qc) (cs : list Qc) :
  fmul (F (-1)) <$> clip_upper (F 0) (diff (Fin <$> c :: cs))
  = NaN :: (Fin <$> ((λ d, qmax (- d) 0) <$> deltas (c :: cs))).
Proof.
  rewrite diff_Fin. unfold clip_upper. simpl. f_equal.
  rewrite <-!list_fmap_compose. apply list_fmap_ext. intros _ d _. simpl.
  rewrite <-loss_qmax. by case_bool_decide.
Qed.

Lemma length_deltas (cs : list Qc) : length (deltas cs) = pred (length cs).
Proof.
  unfold deltas. rewrite length_zip_with, length_tl. lia.
Qed.

Lemma lookup_deltas (cs : list Qc) (i : nat) :
  (S i < length cs)%nat → deltas cs !! i = Some (spec_delta cs (S i)).
Proof.
  intros Hi. unfold deltas, spec_delta, price.
  rewrite lookup_zip_with, lookup_tail. simpl. rewrite Nat.sub_0_r.
  destruct (lookup_lt_is_Some_2 cs (S i)) as [x Hx]; [done|].
  destruct (lookup_lt_is_Some_2 cs i) as [y Hy]; [lia|].
  rewrite Hx, Hy. simpl. by rewrite (nth_lookup_Some _ _ _ _ Hx), (nth_lookup_Some _ _ _ _ Hy).
Qed.

(** The [w] values before position [t] of a list given by a function of
    the position. *)
Lemma window_seq {A} (f : nat → A) (l : list A) (w t : nat) :
  (∀ i, (i < t)%nat → l !! i = Some (f i)) → (w ≤ t)%nat →
  drop (t - w) (take t l) = f <$> seq (t - w) w.
Proof.
  intros Hl Hw. apply list_eq. intros j.
  rewrite lookup_drop, list_lookup_fmap.
  destruct (decide (j < w)%nat) as [Hj|Hj].
  - rewrite lookup_take_lt by lia. rewrite Hl by lia.
    by rewrite lookup_seq_lt.
  - rewrite lookup_take_ge by lia. by rewrite lookup_seq_ge by lia.
Qed.

Lemma window_deltas (f : Qc → Qc) (cs : list Qc) (w t : nat) :
  (w ≤ t)%nat → (t < length cs)%nat →
  drop (t - w) (take t (f <$> deltas cs))
  = (λ k, f (spec_delta cs k)) <$> seq (S t - w) w.
Proof.
  intros Hw Ht.
  rewrite (window_seq (λ i, f (spec_delta cs (S i)))).
  - replace (S t - w)%nat with (S (t - w)) by lia.
    by rewrite <-fmap_S_seq, <-list_fmap_compose.
  - intros i Hi. rewrite list_lookup_fmap, lookup_deltas by lia. done.
  - done.
Qed.

Lemma rolling_mean_NaN_Fin (w : nat) (l : list Qc) (t : nat) :
  (0 < w)%nat → (t ≤ length l)%nat →
  rolling_mean w (NaN :: (Fin <$> l)) !! t
  = Some (if decide (t < w)%nat then NaN
          else Fin (Qc_sum (drop (t - w) (take t l)) / Qz (Z.of_nat w))).
Proof.
  intros Hw Ht.
  rewrite lookup_rolling_mean by (simpl; rewrite length_fmap; lia).
  f_equal. case_decide as Htw.
  - by apply rolling_window_NaN_early.
  - rewrite rolling_window_NaN_Fin by lia.
    assert (length (drop (t - w) (take t l)) = w) as Hlen.
    { rewrite length_drop, length_take. lia. }
    rewrite window_mean_Fin by lia. by rewrite Hlen.
Qed.

Lemma Qc_nonneg_ne_pos (x : Qc) : 0 ≤ x → x ≠ 0 → 0 < x.
Proof. intros Hx Hne. destruct (Qcle_lt_or_eq _ _ Hx); [done|congruence]. Qed.

Lemma Qcdiv_nonneg (g l : Qc) : 0 ≤ g → 0 < l → 0 ≤ g / l.
Proof.
  intros Hg Hl. unfold Qcdiv.
  apply Qcmult_nonneg_nonneg; [done|]. by apply Qclt_le_weak, Qcinv_pos.
Qed.

Lemma Qcinv_le_1 (d : Qc) : 1 ≤ d → 0 < / d ∧ / d ≤ 1.
Proof.
  intros Hd. assert (0 < d) as Hpos by qc_lra.
  pose proof (Qcinv_pos d Hpos) as Hinv. split; [done|].
  apply (Qcmult_le_mono_pos_l _ _ d Hpos).
  rewrite Qcmult_inv_r by (intros ->; by apply Qclt_not_eq in Hpos).
  by rewrite Qcmult_1_r.
Qed.

(** [100 - 100/(1+RS)] stays between 0 and 100 for a ratio [RS >= 0]. *)
Lemma rsi_formula_bounds (r : Qc) :
  0 ≤ r → 1 + r ≠ 0 ∧ 0 ≤ Qz 100 - Qz 100 / (1 + r) ≤ Qz 100.
Proof.
  intros Hr. assert (1 ≤ 1 + r) as Hd by qc_lra.
  destruct (Qcinv_le_1 _ Hd) as [Hv0 Hv1]. split.
  - intros Hz. rewrite Hz in Hd. by apply Qcle_not_lt in Hd.
  - unfold Qcdiv. revert Hv0 Hv1. generalize (/ (1 + r)). intros v Hv0 Hv1.
    split; qc_lra.
Qed.

(** The last line of [compute_rsi] on finite averages. *)
Lemma rsi_value (g l : Qc) :
  0 ≤ g → 0 ≤ l →
  fsub (F 100) (fdiv (F 100) (fadd (F 1) (fdiv (Fin g) (Fin l)))) = spec_rsi g l.
Proof.
  intros Hg Hl. unfold spec_rsi, F. cbn [fdiv].
  destruct (decide (l = 0)) as [->|Hl0].
  - destruct (decide (g = 0)) as [->|Hg0]; [done|].
    rewrite bool_decide_eq_true_2 by by apply Qc_nonneg_ne_pos.
    simpl. f_equal; qc_lra.
  - pose proof (Qc_nonneg_ne_pos _ Hl Hl0) as Hlpos.
    destruct (rsi_formula_bounds (g / l)) as [Hne _]; [by apply Qcdiv_nonneg|].
    cbn [fadd fdiv]. change (Qz 1) with 1. by rewrite decide_False.
Qed.

Lemma spec_avg_gain_nonneg (cs : list Qc) (w t : nat) :
  (0 < w)%nat → 0 ≤ spec_avg_gain cs w t.
Proof.
  intros Hw. apply Qcdiv_nonneg; [|apply Qz_pos; lia].
  apply Qc_sum_nonneg, Forall_fmap, Forall_forall. intros k _. apply qmax_nonneg.
Qed.

Lemma spec_avg_loss_nonneg (cs : list Qc) (w t : nat) :
  (0 < w)%nat → 0 ≤ spec_avg_loss cs w t.
Proof.
  intros Hw. apply Qcdiv_nonneg; [|apply Qz_pos; lia].
  apply Qc_sum_nonneg, Forall_fmap, Forall_forall. intros k _. apply qmax_nonneg.
Qed.

(** What [compute_rsi] holds at bar [t] of a series of finite closes. *)
Lemma lookup_compute_rsi (cs : list Qc) (w t : nat) :
  (0 < w)%nat → (t < length cs)%nat →
  compute_rsi (Fin <$> cs) w !! t
  = Some (if decide (t < w)%nat then NaN
          else spec_rsi (spec_avg_gain cs w t) (spec_avg_loss cs w t)).
Proof.
  intros Hw Ht. destruct cs as [|c cs]; [simpl in Ht; lia|].
  unfold compute_rsi. cbv zeta. rewrite gain_Fin, loss_Fin.
  rewrite list_lookup_fmap, lookup_zip_with.
  rewrite !rolling_mean_NaN_Fin
    by (rewrite ?length_fmap, ?length_deltas; simpl in *; lia).
  simpl. f_equal. case_decide as Htw; [done|].
  rewrite !window_deltas by (simpl in *; lia).
  apply rsi_value.
  - by apply spec_avg_gain_nonneg.
  - by apply spec_avg_loss_nonneg.
Qed.

(** ** Exponentially weighted means on finite values *)

Lemma list_as_seq (cs : list Qc) : cs = price cs <$> seq 0 (length cs).
Proof.
  apply list_eq. intros i. rewrite list_lookup_fmap. unfold price.
  destruct (decide (i < length cs)%nat) as [Hi|Hi].
  - rewrite lookup_seq_lt by done. simpl.
    destruct (lookup_lt_is_Some_2 cs i Hi) as [x Hx].
    by rewrite Hx, (nth_lookup_Some _ _ _ _ Hx).
  - rewrite lookup_seq_ge by lia. by rewrite lookup_ge_None_2 by lia.
Qed.

Lemma Qc_1_neq_0 : (1 : Qc) ≠ 0.
Proof. intros H. apply (f_equal (λ q, Qnum (this q))) in H. discriminate H. Qed.

Lemma ewm_step_rec (alpha w x : Qc) :
  ewm_step false alpha (Fin w, 1) (Fin x)
  = (Fin (alpha * x + (1 - alpha) * w), 1).
Proof.
  unfold ewm_step. cbn [notna fne]. f_equal.
  case_bool_decide as Hne; cbn [fmul fadd fdiv].
  - replace (1 * (1 - alpha) + alpha) with 1 by ring.
    rewrite decide_False by apply Qc_1_neq_0.
    rewrite (right_id 1 Qcdiv). f_equal. ring.
  - assert (w = x) as -> by congruence. f_equal. ring.
Qed.

Lemma ewm_loop_rec (alpha : Qc) (p : nat → Qc) (t n : nat) :
  ewm_loop false alpha (Fin (spec_ema_rec alpha p t), 1)
           (Fin <$> (p <$> seq (S t) n))
  = Fin <$> (spec_ema_rec alpha p <$> seq (S t) n).
Proof.
  revert t. induction n as [|n IH]; intros t; [done|].
  cbn [seq fmap list_fmap ewm_loop]. rewrite ewm_step_rec. cbn [fst].
  f_equal. apply (IH (S t)).
Qed.

Lemma ewm_mean_rec (span : Z) (p : nat → Qc) (n : nat) :
  ewm_mean false span (Fin <$> (p <$> seq 0 n))
  = Fin <$> (spec_ema_rec (alpha_of_span span) p <$> seq 0 n).
Proof.
  destruct n as [|n]; [done|].
  cbn [seq fmap list_fmap ewm_mean]. f_equal.
  apply (ewm_loop_rec _ p 0 n).
Qed.











Lemma lookup_fmap_seq {A} (f : nat → A) (n t : nat) :
  (t < n)%nat → (f <$> seq 0 n) !! t = Some (f t).
Proof. intros Ht. by rewrite list_lookup_fmap, lookup_seq_lt. Qed.

(** The streaming EMA of a series of finite closes, bar by bar. *)
Lemma lookup_ewm_rec (span : Z) (cs : list Qc) (t : nat) :
  (t < length cs)%nat →
  ewm_mean false span (Fin <$> cs) !! t
  = Some (Fin (spec_ema_rec (alpha_of_span span) (price cs) t)).
Proof.
  intros Ht. rewrite (list_as_seq cs) at 1. rewrite ewm_mean_rec.
  by rewrite list_lookup_fmap, lookup_fmap_seq.
Qed.



(** ** Moving averages of a decreasing series stay above the close *)




Lemma price_lookup (cs : list Qc) (i : nat) (x : Qc) :
  cs !! i = Some x → price cs i = x.
Proof. apply nth_lookup_Some. Qed.


(** ** Data frames: [calculate_indicators] and [get_signals] *)

Lemma calculate_indicators_eq (df : DataFrame) (close : list float) :
  getitem df "Close" = Some close →
  calculate_indicators df
  = Some (setitem (setitem (setitem (setitem (setitem df
            "EMA" (ewm_mean true 20 close))
            "SMA" (rolling_mean 10 close))
            "RSI" (compute_rsi close 14))
            "MACD" (compute_macd close).1)
            "Signal" (compute_macd close).2).
Proof.
  intros Hc. unfold calculate_indicators, getitem, setitem in *. simpl.
  rewrite Hc. simpl.
  do 3 (rewrite !lookup_insert_ne by done; rewrite Hc; simpl). done.
Qed.

Lemma mapM_getitem (df : DataFrame) (l : list string) :
  (∀ c, c ∈ l → is_Some (columns df !! c)) →
  mapM (getitem df) l = Some ((λ c, default [] (columns df !! c)) <$> l).
Proof.
  change (getitem df) with (λ c, columns df !! c).
  induction l as [|c l IH]; intros Hl; [done|].
  destruct (Hl c) as [s Hs]; [apply list_elem_of_here|].
  simpl. rewrite Hs. simpl.
  rewrite IH by (intros; by apply Hl, list_elem_of_further). done.
Qed.

Lemma fmap_nonempty {A B} (f : A → B) (m : gmap string A) (k : string) (x : A) :
  m !! k = Some x → f <$> m ≠ ∅.
Proof.
  intros Hk He. apply (f_equal (λ m', m' !! k)) in He.
  by rewrite lookup_fmap, Hk, lookup_empty in He.
Qed.

Lemma mask_select_none {A} (mask : list bool) (l : list A) :
  (∀ j, mask !! j ≠ Some true) → mask_select mask l = [].
Proof.
  revert l. induction mask as [|b mask IH]; intros l Hm; [done|].
  destruct l as [|x l]; [done|]. simpl.
  destruct b; [by destruct (Hm 0%nat)|].
  apply IH. intros j. apply (Hm (S j)).
Qed.

(** The last selected element is the one at the last position the mask
    keeps. *)
Lemma mask_select_last {A} (mask : list bool) (l : list A) (i : nat) :
  length mask = length l → mask !! i = Some true →
  (∀ j, (i < j)%nat → mask !! j ≠ Some true) →
  last (mask_select mask l) = l !! i.
Proof.
  revert l i. induction mask as [|b mask IH]; intros l i Hlen Hi Hlast; [done|].
  destruct l as [|x l]; [done|]. simpl in Hlen.
  destruct i as [|i]; simpl in Hi.
  - injection Hi as ->. simpl.
    rewrite mask_select_none; [done|].
    intros j. apply (Hlast (S j)). lia.
  - assert (last (mask_select mask l) = l !! i) as Hrec.
    { apply IH; [lia|done|]. intros j Hj. apply (Hlast (S j)). lia. }
    assert (is_Some (l !! i)) as [y Hy].
    { apply lookup_lt_is_Some. apply lookup_lt_Some in Hi. lia. }
    simpl. destruct b; [|done].
    rewrite last_cons, Hrec, Hy. done.
Qed.

(** Membership in a list given by its elements. *)
Ltac in_list :=
  repeat first [apply list_elem_of_here | apply list_elem_of_further].

Lemma row_defined_notna (df : DataFrame) (j : nat) :
  row_defined df j
  ↔ row_notna ((λ c, default [] (columns df !! c))
                 <$> ["RSI"; "MACD"; "Signal"; "EMA"; "SMA"; "Close"]) j = true.
Proof.
  unfold row_defined, row_notna, cell. simpl. split.
  - intros H. rewrite !H by in_list. done.
  - intros H c Hc. repeat (apply andb_prop in H as [? H]).
    repeat (apply elem_of_cons in Hc as [->|Hc]; [done|]).
    by apply elem_of_nil in Hc.
Qed.

Lemma latest_lookup (df : DataFrame) (mask : list bool) (i : nat)
    (c : string) (s : list float) :
  columns df !! c = Some s → length mask = length s →
  mask !! i = Some true → (∀ j, (i < j)%nat → mask !! j ≠ Some true) →
  omap last (mask_select mask <$> columns df) !! c = Some (cell df c i).
Proof.
  intros Hs Hlen Hi Hlast. unfold cell.
  rewrite lookup_omap, lookup_fmap, Hs. simpl.
  rewrite (mask_select_last mask s i) by done.
  apply list_lookup_lookup_total_lt. apply lookup_lt_Some in Hi. lia.
Qed.

Section GetSignals.

Variable df : DataFrame.

(** The six columns [get_signals] reads exist and have one value per row. *)
Hypothesis Hcols :
  ∀ c, c ∈ ["RSI"; "MACD"; "Signal"; "EMA"; "SMA"; "Close"] →
       ∃ s, columns df !! c = Some s ∧ length s = length (index df).

Let mask : list bool :=
  row_notna ((λ c, default [] (columns df !! c))
               <$> ["RSI"; "MACD"; "Signal"; "EMA"; "SMA"; "Close"])
    <$> seq 0 (length (index df)).

Lemma dropna_indicators :
  dropna ["RSI"; "MACD"; "Signal"; "EMA"; "SMA"; "Close"] df
  = Some (mkDF (mask_select mask (index df)) (mask_select mask <$> columns df)).
Proof.
  unfold dropna. rewrite mapM_getitem; [done|].
  intros c Hc. destruct (Hcols c Hc) as (s & -> & _). by eexists.
Qed.

Lemma length_mask : length mask = length (index df).
Proof. unfold mask. by rewrite length_fmap, length_seq. Qed.

Lemma mask_true (i : nat) :
  (i < length (index df))%nat → row_defined df i → mask !! i = Some true.
Proof.
  intros Hi Hrow. unfold mask. rewrite list_lookup_fmap, lookup_seq_lt by done.
  simpl. f_equal. by apply row_defined_notna.
Qed.

Lemma mask_not_true (j : nat) : ¬ row_defined df j → mask !! j ≠ Some true.
Proof.
  intros Hrow. unfold mask. rewrite list_lookup_fmap.
  destruct (decide (j < length (index df))%nat) as [Hj|Hj].
  - rewrite lookup_seq_lt by done. simpl. intros [= Hm].
    by apply Hrow, row_defined_notna.
  - by rewrite lookup_seq_ge by lia.
Qed.

(** No row with all six values: the default answer. *)
Lemma get_signals_none :
  (∀ j, (j < length (index df))%nat → ¬ row_defined df j) →
  get_signals df = Some (signal_set HOLD HOLD HOLD HOLD).
Proof.
  intros Hnone. unfold get_signals. rewrite dropna_indicators. simpl.
  unfold empty. cbn [index columns]. rewrite mask_select_none; [done|].
  intros j. destruct (decide (j < length (index df))%nat) as [Hj|Hj].
  - by apply mask_not_true, Hnone.
  - unfold mask. by rewrite list_lookup_fmap, lookup_seq_ge by lia.
Qed.

(** Row [i] is the last one with all six values: the signals are those of
    that row. *)
Lemma get_signals_latest (i : nat) :
  (i < length (index df))%nat → row_defined df i →
  (∀ j, (i < j < length (index df))%nat → ¬ row_defined df j) →
  get_signals df
  = Some (signal_set
            (spec_rsi_signal (cell df "RSI" i))
            (spec_macd_signal (cell df "MACD" i) (cell df "Signal" i))
            (spec_above_signal (cell df "Close" i) (cell df "EMA" i))
            (spec_above_signal (cell df "Close" i) (cell df "SMA" i))).
Proof.
  intros Hi Hrow Hlater.
  pose proof (mask_true i Hi Hrow) as Hmi.
  assert (∀ j, (i < j)%nat → mask !! j ≠ Some true) as Hmj.
  { intros j Hj. destruct (decide (j < length (index df))%nat).
    - apply mask_not_true, Hlater. lia.
    - unfold mask. by rewrite list_lookup_fmap, lookup_seq_ge by lia. }
  assert (∀ c, c ∈ ["RSI"; "MACD"; "Signal"; "EMA"; "SMA"; "Close"] →
    omap last (mask_select mask <$> columns df) !! c = Some (cell df c i)) as Hlk.
  { intros c Hc. destruct (Hcols c Hc) as (s & Hs & Hlen).
    apply (latest_lookup df mask i c s); [done| |done..].
    by rewrite length_mask. }
  unfold get_signals. rewrite dropna_indicators. cbn [mbind option_bind].
  assert (mask_select mask (index df) ≠ []) as Hne.
  { apply last_is_Some. rewrite (mask_select_last mask (index df) i);
      [by apply lookup_lt_is_Some|by rewrite length_mask|done..]. }
  assert (mask_select mask <$> columns df ≠ ∅) as Hcne.
  { destruct (Hcols "RSI") as (s & Hs & _); [in_list|].
    by apply (fmap_nonempty _ _ "RSI" s). }
  unfold iloc_last, empty. cbn [index columns].
  rewrite !bool_decide_eq_false_2 by done. cbn [orb].
  destruct (mask_select mask (index df)) as [|z zs] eqn:Hsel; [done|].
  cbn [mbind option_bind].
  rewrite (Hlk "RSI") by in_list. cbn [mbind option_bind].
  rewrite (Hlk "MACD") by in_list. cbn [mbind option_bind].
  rewrite (Hlk "Signal") by in_list. cbn [mbind option_bind].
  rewrite (Hlk "Close") by in_list. cbn [mbind option_bind].
  rewrite (Hlk "EMA") by in_list. cbn [mbind option_bind].
  rewrite (Hlk "SMA") by in_list. cbn [mbind option_bind].
  by rewrite insert_empty.
Qed.

End GetSignals.

(** ** MACD on finite closes *)



(** ** The frame after [calculate_indicators] *)

Lemma calculate_indicators_columns (df : DataFrame) (close : list float) :
  getitem df "Close" = Some close →
  ∃ df', calculate_indicators df = Some df'
    ∧ index df' = index df
    ∧ columns df' !! "EMA" = Some (ewm_mean true 20 close)
    ∧ columns df' !! "SMA" = Some (rolling_mean 10 close)
    ∧ columns df' !! "RSI" = Some (compute_rsi close 14)
    ∧ columns df' !! "MACD" = Some (compute_macd close).1
    ∧ columns df' !! "Signal" = Some (compute_macd close).2
    ∧ (∀ c, c ∉ ["EMA"; "SMA"; "RSI"; "MACD"; "Signal"] →
            columns df' !! c = columns df !! c).
Proof.
  intros Hc. eexists. split; [by apply calculate_indicators_eq|].
  unfold setitem. cbn [index columns]. split; [done|].
  repeat split.
  - do 4 (rewrite lookup_insert_ne by done). by rewrite lookup_insert_eq.
  - do 3 (rewrite lookup_insert_ne by done). by rewrite lookup_insert_eq.
  - do 2 (rewrite lookup_insert_ne by done). by rewrite lookup_insert_eq.
  - rewrite lookup_insert_ne by done. by rewrite lookup_insert_eq.
  - by rewrite lookup_insert_eq.
  - intros c Hn. rewrite !lookup_insert_ne; [done|..];
      intros <-; apply Hn; in_list.
Qed.

Lemma cell_lookup (df : DataFrame) (c : string) (s : list float) (i : nat) (v : float) :
  columns df !! c = Some s → s !! i = Some v → cell df c i = v.
Proof.
  intros Hs Hv. unfold cell. rewrite Hs. simpl.
  by apply list_lookup_total_correct.
Qed.

(** The six columns read by [get_signals] are there after
    [calculate_indicators], each with one value per row. *)
Lemma indicator_columns_aligned (df df' : DataFrame) (close : list float) :
  getitem df "Close" = Some close → length close = length (index df) →
  calculate_indicators df = Some df' →
  ∀ c, c ∈ ["RSI"; "MACD"; "Signal"; "EMA"; "SMA"; "Close"] →
       ∃ s, columns df' !! c = Some s ∧ length s = length (index df').
Proof.
  intros Hc Hlen Hcalc.
  destruct (calculate_indicators_columns df close Hc)
    as (df'' & Hcalc' & Hidx & HE & HS & HR & HM & HG & Hother).
  rewrite Hcalc in Hcalc'. injection Hcalc' as <-.
  destruct (length_compute_macd close) as [Hl1 Hl2].
  intros c Hin. rewrite Hidx, <-Hlen.
  repeat (apply elem_of_cons in Hin as [->|Hin]).
  - eexists. split; [done|]. apply length_compute_rsi.
  - eexists. split; [done|]. done.
  - eexists. split; [done|]. done.
  - eexists. split; [done|]. apply length_ewm_mean.
  - eexists. split; [done|]. apply length_rolling_mean.
  - exists close. split; [|done]. rewrite Hother; [done|].
    intros Hin'. repeat (apply elem_of_cons in Hin' as [?|Hin']; [done|]).
    by apply elem_of_nil in Hin'.
  - by apply elem_of_nil in Hin.
Qed.



(** ** [get_signals] and the pipeline never fail on a well-formed frame *)

Lemma length_mask_select {A B} (mask : list bool) (l1 : list A) (l2 : list B) :
  length l1 = length l2 →
  length (mask_select mask l1) = length (mask_select mask l2).
Proof.
  revert l1 l2. induction mask as [|b mask IH]; intros [|x l1] [|y l2] Hl;
    simpl in *; try done.
  destruct b; simpl; rewrite (IH l1 l2) by lia; done.
Qed.

Lemma get_signals_total (df : DataFrame) :
  (∀ c, c ∈ ["RSI"; "MACD"; "Signal"; "EMA"; "SMA"; "Close"] →
        ∃ s, columns df !! c = Some s ∧ length s = length (index df)) →
  is_Some (get_signals df).
Proof.
  intros Hcols. unfold get_signals. rewrite (dropna_indicators df Hcols).
  cbn [mbind option_bind]. unfold iloc_last, empty. cbn [index columns].
  set (mask := row_notna _ <$> seq 0 (length (index df))).
  case_bool_decide as Hemp; [by eexists|].
  destruct (mask_select mask (index df)) as [|z zs] eqn:Hsel; [done|].
  clear Hemp. assert (z :: zs ≠ []) as Hemp by done. rewrite <-Hsel in Hemp.
  cbn [orb]. case_bool_decide; [by eexists|]. cbn [mbind option_bind].
  assert (∀ c, c ∈ ["RSI"; "MACD"; "Signal"; "EMA"; "SMA"; "Close"] →
    is_Some (omap last (mask_select mask <$> columns df) !! c)) as Hlk.
  { intros c Hc. destruct (Hcols c Hc) as (s & Hs & Hlen).
    rewrite lookup_omap, lookup_fmap, Hs. simpl.
    apply last_is_Some. intros Hnil. apply Hemp.
    apply length_zero_iff_nil.
    rewrite <-(length_mask_select mask s (index df)) by done.
    by rewrite Hnil. }
  destruct (Hlk "RSI") as [? ->]; [in_list|]. cbn [mbind option_bind].
  destruct (Hlk "MACD") as [? ->]; [in_list|]. cbn [mbind option_bind].
  destruct (Hlk "Signal") as [? ->]; [in_list|]. cbn [mbind option_bind].
  destruct (Hlk "Close") as [? ->]; [in_list|]. cbn [mbind option_bind].
  destruct (Hlk "EMA") as [? ->]; [in_list|]. cbn [mbind option_bind].
  destruct (Hlk "SMA") as [? ->]; [in_list|]. cbn [mbind option_bind].
  by eexists.
Qed.

Lemma frame_buy_count_total (df : DataFrame) :
  price_frame df → is_Some (frame_buy_count df).
Proof.
  intros (close & Hc & Hlen). unfold frame_buy_count.
  destruct (calculate_indicators_columns df close Hc) as (df' & Hcalc & _).
  rewrite Hcalc. cbn [mbind option_bind].
  destruct (get_signals_total df') as [signals ->]; [|by eexists].
  by apply (indicator_columns_aligned df df' close).
Qed.

(** ** The scan loop *)

Section Scan.

Variable fetch : string → option DataFrame.

Lemma scan_body_line (matches : list string) (symbol : string) :
  (∀ df, fetch symbol = Some df → empty df = false → price_frame df) →
  scan_body fetch matches symbol
  = Some (matches ++ option_list (ticker_line fetch symbol)).
Proof.
  intros Hwf. unfold scan_body, ticker_line, ticker_buy_count.
  destruct (fetch symbol) as [df|] eqn:Hf; cbn [mbind option_bind option_list];
    [|by rewrite app_nil_r].
  destruct (empty df) eqn:He; cbn [mbind option_bind option_list];
    [by rewrite app_nil_r|].
  destruct (frame_buy_count_total df) as [n Hn]; [by apply Hwf|].
  rewrite Hn. unfold frame_buy_count in Hn.
  destruct (calculate_indicators df) as [df'|]; [|done].
  cbn [mbind option_bind] in *.
  destruct (get_signals df') as [signals|]; [|done].
  cbn [mbind option_bind] in *. injection Hn as ->.
  case_decide; cbn [option_list]; [done|by rewrite app_nil_r].
Qed.

Lemma scan_loop_lines (symbols matches : list string) :
  (∀ s df, s ∈ symbols → fetch s = Some df → empty df = false → price_frame df) →
  scan_loop fetch matches symbols
  = Some (matches ++ omap (ticker_line fetch) symbols).
Proof.
  revert matches. induction symbols as [|s symbols IH]; intros matches Hwf.
  - simpl. by rewrite app_nil_r.
  - cbn [scan_loop]. rewrite scan_body_line
      by (intros df; apply Hwf; apply list_elem_of_here).
    cbn [mbind option_bind].
    rewrite IH by (intros s' df' Hin; apply Hwf; by apply list_elem_of_further).
    f_equal. rewrite <-app_assoc. f_equal.
    cbn [omap list_omap]. by destruct (ticker_line fetch s).
Qed.

End Scan.

(** * The claims *)

(** A map defined exactly on the four indicator names is a signal set. *)
Lemma signal_set_intro (signals : gmap string Signal) (rsi macd ema sma : Signal) :
  dom signals = {["RSI"; "MACD"; "EMA"; "SMA"]} →
  signals !! "RSI" = Some rsi → signals !! "MACD" = Some macd →
  signals !! "EMA" = Some ema → signals !! "SMA" = Some sma →
  signals = signal_set rsi macd ema sma.
Proof.
  intros Hdom HR HM HE HS. unfold signal_set. apply map_eq. intros k.
  destruct (decide (k = "SMA")) as [->|?]; [by rewrite lookup_insert_eq|].
  rewrite lookup_insert_ne by done.
  destruct (decide (k = "EMA")) as [->|?]; [by rewrite lookup_insert_eq|].
  rewrite lookup_insert_ne by done.
  destruct (decide (k = "MACD")) as [->|?]; [by rewrite lookup_insert_eq|].
  rewrite lookup_insert_ne by done.
  destruct (decide (k = "RSI")) as [->|?]; [by rewrite lookup_singleton_eq|].
  rewrite lookup_singleton_ne by done.
  apply not_elem_of_dom. rewrite Hdom.
  rewrite !elem_of_union, !elem_of_singleton. tauto.
Qed.

Lemma buy_count_signal_set (rsi macd ema sma : Signal) :
  buy_count (signal_set rsi macd ema sma)
  = length (filter (λ v, v = BUY) [rsi; macd; ema; sma]).
Proof. destruct rsi, macd, ema, sma; vm_compute; reflexivity. Qed.

(** C1: for every signal set, the count of BUY values in the dictionary is
    the number of BUY among the four indicator signals, and the overall
    recommendation is BUY when that count is at least 3, SELL when it is at
    most 1, and HOLD when it is 2. *)
Theorem C1_overall_recommendation
    (signals : gmap string Signal) (rsi macd ema sma : Signal) :
  dom signals = {["RSI"; "MACD"; "EMA"; "SMA"]} →
  signals !! "RSI" = Some rsi → signals !! "MACD" = Some macd →
  signals !! "EMA" = Some ema → signals !! "SMA" = Some sma →
  buy_count signals = length (filter (λ v, v = BUY) [rsi; macd; ema; sma])
  ∧ (3 ≤ buy_count signals → overall (buy_count signals) = BUY)%nat
  ∧ (buy_count signals ≤ 1 → overall (buy_count signals) = SELL)%nat
  ∧ (buy_count signals = 2 → overall (buy_count signals) = HOLD)%nat.
Proof.
  intros Hdom HR HM HE HS.
  rewrite (signal_set_intro signals rsi macd ema sma) by done.
  split; [apply buy_count_signal_set|].
  generalize (buy_count (signal_set rsi macd ema sma)). intros n.
  unfold overall. repeat split; intros Hn; repeat case_decide; done || lia.
Qed.

Lemma C1_witness :
  buy_count (signal_set SELL BUY BUY BUY) = 3%nat
  ∧ overall (buy_count (signal_set SELL BUY BUY BUY)) = BUY.
Proof.
  assert (dom (signal_set SELL BUY BUY BUY) = {["RSI"; "MACD"; "EMA"; "SMA"]})
    as Hdom.
  { unfold signal_set. rewrite !dom_insert_L, dom_singleton_L.
    apply set_eq. intros k. rewrite !elem_of_union, !elem_of_singleton. tauto. }
  destruct (C1_overall_recommendation (signal_set SELL BUY BUY BUY)
              SELL BUY BUY BUY Hdom eq_refl eq_refl eq_refl eq_refl)
    as (Hn & Hbuy & _).
  split; [exact Hn|]. apply Hbuy. rewrite Hn. vm_compute. lia.
Defined.

(** C2: on an indicator frame, the classifier answers from the most recent
    row in which RSI, MACD, Signal, EMA, SMA and Close are all defined, by
    the per-indicator rules on that row alone; when no row has all six
    defined it returns the signal set mapping RSI, MACD, EMA and SMA to HOLD,
    and raises nothing. *)
Theorem C2_signals_from_latest_defined_row (df : DataFrame) :
  (∀ c, c ∈ ["RSI"; "MACD"; "Signal"; "EMA"; "SMA"; "Close"] →
        ∃ s, columns df !! c = Some s ∧ length s = length (index df)) →
  (∀ i, (i < length (index df))%nat → row_defined df i →
        (∀ j, (i < j < length (index df))%nat → ¬ row_defined df j) →
        get_signals df
        = Some (signal_set
            (spec_rsi_signal (cell df "RSI" i))
            (spec_macd_signal (cell df "MACD" i) (cell df "Signal" i))
            (spec_above_signal (cell df "Close" i) (cell df "EMA" i))
            (spec_above_signal (cell df "Close" i) (cell df "SMA" i))))
  ∧ ((∀ j, (j < length (index df))%nat → ¬ row_defined df j) →
     get_signals df = Some (signal_set HOLD HOLD HOLD HOLD)).
Proof.
  intros Hcols. split.
  - intros i. by apply get_signals_latest.
  - by apply get_signals_none.
Qed.

(** Columns of a frame given by its list of columns. *)
Ltac frame_columns :=
  let c := fresh "c" in let Hc := fresh "Hc" in
  intros c Hc;
  repeat (apply elem_of_cons in Hc as [->|Hc];
          [eexists; split; [vm_compute; reflexivity | reflexivity]|]);
  by apply elem_of_nil in Hc.

Ltac row_is_defined :=
  let c := fresh "c" in let Hc := fresh "Hc" in
  intros c Hc;
  repeat (apply elem_of_cons in Hc as [->|Hc]; [vm_compute; reflexivity|]);
  by apply elem_of_nil in Hc.

Lemma C2_witness :
  get_signals frame_three_bars = Some (signal_set BUY SELL SELL BUY)
  ∧ get_signals frame_warm_up = Some (signal_set HOLD HOLD HOLD HOLD).
Proof.
  split.
  - assert (∀ c, c ∈ ["RSI"; "MACD"; "Signal"; "EMA"; "SMA"; "Close"] →
      ∃ s, columns frame_three_bars !! c = Some s
           ∧ length s = length (index frame_three_bars)) as Hcols
      by frame_columns.
    destruct (C2_signals_from_latest_defined_row frame_three_bars Hcols)
      as [Hlatest _].
    rewrite (Hlatest 1%nat).
    + vm_compute. reflexivity.
    + simpl. lia.
    + row_is_defined.
    + intros j Hj Hrow. assert (j = 2%nat) as -> by (simpl in Hj; lia).
      specialize (Hrow "RSI" (list_elem_of_here _ _)). vm_compute in Hrow.
      discriminate Hrow.
  - assert (∀ c, c ∈ ["RSI"; "MACD"; "Signal"; "EMA"; "SMA"; "Close"] →
      ∃ s, columns frame_warm_up !! c = Some s
           ∧ length s = length (index frame_warm_up)) as Hcols
      by frame_columns.
    destruct (C2_signals_from_latest_defined_row frame_warm_up Hcols)
      as [_ Hnone].
    apply Hnone. intros j Hj Hrow.
    specialize (Hrow "RSI" (list_elem_of_here _ _)).
    assert (j = 0%nat ∨ j = 1%nat) as [-> | ->] by (simpl in Hj; lia);
      vm_compute in Hrow; discriminate Hrow.
Defined.









(** ** Strictly decreasing closes *)







Lemma lookup_signal_set (rsi macd ema sma : Signal) :
  signal_set rsi macd ema sma !! "RSI" = Some rsi
  ∧ signal_set rsi macd ema sma !! "MACD" = Some macd
  ∧ signal_set rsi macd ema sma !! "EMA" = Some ema
  ∧ signal_set rsi macd ema sma !! "SMA" = Some sma.
Proof. unfold signal_set. repeat split; by simplify_map_eq. Qed.




(** C6: on the closes 10, 11, ..., 30 the last bar has RSI > 70, MACD above
    its signal line and Close above EMA and SMA, so the signals are SELL for
    RSI and BUY for MACD, EMA and SMA, the count of BUY is 3 and the overall
    recommendation is BUY. *)
Theorem C6_ascending_scenario (df : DataFrame) :
  getitem df "Close" = Some closes_10_30 → length (index df) = 21%nat →
  ∃ df' signals,
    calculate_indicators df = Some df' ∧ get_signals df' = Some signals
    ∧ fgt (cell df' "RSI" 20) (F 70) = true
    ∧ signals !! "RSI" = Some SELL
    ∧ fgt (cell df' "MACD" 20) (cell df' "Signal" 20) = true
    ∧ signals !! "MACD" = Some BUY
    ∧ fgt (cell df' "Close" 20) (cell df' "EMA" 20) = true
    ∧ signals !! "EMA" = Some BUY
    ∧ fgt (cell df' "Close" 20) (cell df' "SMA" 20) = true
    ∧ signals !! "SMA" = Some BUY
    ∧ buy_count signals = 3%nat
    ∧ overall (buy_count signals) = BUY
    ∧ ∀ fetch symbol, fetch symbol = Some df →
        update_stock_data fetch symbol = Some (inr (signals, BUY, df')).
Proof.
  intros Hc Hidx.
  destruct (calculate_indicators_columns df _ Hc)
    as (df' & Hcalc & Hidx' & HE & HS & HR & HM & HG & Hother).
  assert (columns df' !! "Close" = Some closes_10_30) as HC.
  { rewrite Hother; [exact Hc|]. intros Hin.
    repeat (apply elem_of_cons in Hin as [?|Hin]; [done|]).
    by apply elem_of_nil in Hin. }
  assert (get_signals df' = Some (signal_set SELL BUY BUY BUY)) as Hsig.
  { rewrite (get_signals_latest df') with (i := 20%nat).
    - unfold cell. rewrite HE, HS, HR, HM, HG, HC. vm_compute. reflexivity.
    - apply (indicator_columns_aligned df df' closes_10_30);
        [exact Hc | by rewrite Hidx | exact Hcalc].
    - rewrite Hidx', Hidx. lia.
    - intros c Hin. unfold cell.
      repeat (apply elem_of_cons in Hin as [->|Hin];
              [rewrite ?HE, ?HS, ?HR, ?HM, ?HG, ?HC; vm_compute; reflexivity|]).
      by apply elem_of_nil in Hin.
    - intros j Hj. rewrite Hidx', Hidx in Hj. lia. }
  exists df', (signal_set SELL BUY BUY BUY).
  destruct (lookup_signal_set SELL BUY BUY BUY) as (-> & -> & -> & ->).
  unfold cell. rewrite HE, HS, HR, HM, HG, HC.
  split; [exact Hcalc|]. split; [exact Hsig|].
  split; [vm_compute; reflexivity|]. split; [reflexivity|].
  split; [vm_compute; reflexivity|]. split; [reflexivity|].
  split; [vm_compute; reflexivity|]. split; [reflexivity|].
  split; [vm_compute; reflexivity|]. split; [reflexivity|].
  split; [vm_compute; reflexivity|]. split; [vm_compute; reflexivity|].
  intros fetch symbol Hf. unfold update_stock_data. rewrite Hf.
  unfold empty. rewrite !bool_decide_eq_false_2;
    [|intros He; unfold getitem in Hc; by rewrite He, lookup_empty in Hc
     |intros Hnil; by rewrite Hnil in Hidx].
  cbn [orb].
  rewrite Hcalc. cbn [mbind option_bind]. rewrite Hsig. cbn [mbind option_bind].
  assert (overall (buy_count (signal_set SELL BUY BUY BUY)) = BUY) as ->
    by (vm_compute; reflexivity).
  reflexivity.
Qed.

Lemma C6_witness :
  ∃ df' signals,
    calculate_indicators frame_10_30 = Some df'
    ∧ get_signals df' = Some signals
    ∧ signals !! "RSI" = Some SELL
    ∧ buy_count signals = 3%nat
    ∧ overall (buy_count signals) = BUY.
Proof.
  destruct (C6_ascending_scenario frame_10_30 eq_refl eq_refl)
    as (df' & signals & Hcalc & Hsig & _ & HR & _ & _ & _ & _ & _ & _
        & Hn & Hov & _).
  exists df', signals. repeat split; assumption.
Defined.

(** C7: the scan goes through the watch-list in order; a ticker whose fetch
    fails or returns no bar leaves the accumulator as it is and the scan
    goes on; the recorded lines are, in watch-list order, the lines
    ["<ticker>: <n>/4 indicators say BUY"] of exactly the tickers whose
    count [n] of BUY signals is at least 3. *)
Theorem C7_scan_records_majority_buy
    (fetch : string → option DataFrame) (symbols : list string) :
  (∀ s df, s ∈ symbols → fetch s = Some df → empty df = false →
           price_frame df) →
  ∃ matches,
    scan_loop fetch [] symbols = Some matches
    ∧ matches = omap (ticker_line fetch) symbols
    ∧ scan_list fetch symbols
      = Some (match matches with
              | [] => no_matches_report
              | _ => String.concat newline matches
              end)
    ∧ (∀ s acc, fetch s = None ∨ (∃ df, fetch s = Some df ∧ empty df = true) →
          scan_body fetch acc s = Some acc ∧ ticker_line fetch s = None)
    ∧ (∀ line, line ∈ matches ↔
         ∃ s n, s ∈ symbols ∧ ticker_buy_count fetch s = Some n ∧ (3 ≤ n)%nat
                ∧ line = s +:+ ": " +:+ pretty n +:+ "/4 indicators say BUY").
Proof.
  intros Hwf. exists (omap (ticker_line fetch) symbols).
  pose proof (scan_loop_lines fetch symbols [] Hwf) as Hloop.
  rewrite app_nil_l in Hloop.
  split; [exact Hloop|]. split; [reflexivity|]. split.
  { unfold scan_list. rewrite Hloop. reflexivity. }
  split.
  - intros s acc Hskip. unfold scan_body, ticker_line, ticker_buy_count.
    destruct Hskip as [-> | (df & -> & Hemp)]; [done|].
    cbn [mbind option_bind]. by rewrite Hemp.
  - intros line. rewrite list_elem_of_omap. split.
    + intros (s & Hin & Hline). unfold ticker_line in Hline.
      destruct (ticker_buy_count fetch s) as [n|] eqn:Hn; [|done].
      cbn [mbind option_bind] in Hline. case_decide; [|done].
      injection Hline as <-. by exists s, n.
    + intros (s & n & Hin & Hn & Hge & ->). exists s. split; [done|].
      unfold ticker_line. rewrite Hn. cbn [mbind option_bind].
      by rewrite decide_True.
Qed.

Lemma sample_fetch_frames (s : string) (df : DataFrame) :
  sample_fetch s = Some df → empty df = false → price_frame df.
Proof.
  unfold sample_fetch. repeat case_decide; intros [= <-] Hemp; try done.
  - exists closes_10_30. split; reflexivity.
  - exists (Fin <$> prices_40_25). split; reflexivity.
Qed.

Lemma C7_witness :
  scan_list sample_fetch ["ZZZZ"; "UP"; "NONE"; "DOWN"]
  = Some "UP: 3/4 indicators say BUY".
Proof.
  destruct (C7_scan_records_majority_buy sample_fetch
              ["ZZZZ"; "UP"; "NONE"; "DOWN"])
    as (matches & _ & Hm & Hreport & _).
  - intros s df _. apply sample_fetch_frames.
  - rewrite Hreport, Hm. vm_compute. reflexivity.
Defined.

(** C8, as the code has it: when no ticker of the watch-list reaches three
    BUY signals, the report is exactly ["No strong BUY signals found."]. *)
Theorem C8_no_match_report
    (fetch : string → option DataFrame) (symbols : list string) :
  (∀ s df, s ∈ symbols → fetch s = Some df → empty df = false →
           price_frame df) →
  (∀ s n, s ∈ symbols → ticker_buy_count fetch s = Some n → (n < 3)%nat) →
  scan_list fetch symbols = Some "No strong BUY signals found.".
Proof.
  intros Hwf Hlow. unfold scan_list.
  rewrite (scan_loop_lines fetch symbols [] Hwf). rewrite app_nil_l.
  cbn [mbind option_bind].
  assert (omap (ticker_line fetch) symbols = []) as ->; [|reflexivity].
  apply elem_of_nil_inv. intros line (s & Hin & Hline)%list_elem_of_omap.
  unfold ticker_line in Hline.
  destruct (ticker_buy_count fetch s) as [n|] eqn:Hn; [|done].
  cbn [mbind option_bind] in Hline. specialize (Hlow s n Hin Hn).
  by rewrite decide_False in Hline by lia.
Qed.

Lemma C8_witness :
  scan_list sample_fetch ["ZZZZ"; "DOWN"] = Some "No strong BUY signals found.".
Proof.
  apply C8_no_match_report.
  - intros s df _. apply sample_fetch_frames.
  - intros s n Hin Hn.
    repeat (apply elem_of_cons in Hin as [->|Hin]).
    + vm_compute in Hn. discriminate Hn.
    + vm_compute in Hn. injection Hn as <-. lia.
    + by apply elem_of_nil in Hin.
Defined.

(** C8 as stated fails: when every fetch fails no ticker reaches the
    threshold, and the report is not ["no strong BUY signals found"]. *)
Lemma C8_counterexample :
  omap (ticker_line failing_fetch) tickers = []
  ∧ scan_market failing_fetch = Some "No strong BUY signals found."
  ∧ scan_market failing_fetch ≠ Some "no strong BUY signals found".
Proof.
  split; [reflexivity|]. split; [reflexivity|].
  intros Heq. vm_compute in Heq. discriminate Heq.
Qed.

(** C10: computing the indicators keeps the index (length and timestamps)
    and every column other than the five derived ones, in particular Open,
    High, Low, Close and Volume; it adds EMA, SMA, RSI, MACD and Signal,
    each with one value per bar. *)
Theorem C10_price_columns_unchanged (df : DataFrame) (close : list float) :
  getitem df "Close" = Some close → length close = length (index df) →
  ∃ df', calculate_indicators df = Some df'
    ∧ index df' = index df
    ∧ (∀ c, c ∈ ["Open"; "High"; "Low"; "Close"; "Volume"] →
            columns df' !! c = columns df !! c)
    ∧ (∀ c, c ∉ ["EMA"; "SMA"; "RSI"; "MACD"; "Signal"] →
            columns df' !! c = columns df !! c)
    ∧ (∀ c, c ∈ ["EMA"; "SMA"; "RSI"; "MACD"; "Signal"] →
            ∃ s, columns df' !! c = Some s ∧ length s = length (index df))
    ∧ dom (columns df')
      = dom (columns df) ∪ {["EMA"; "SMA"; "RSI"; "MACD"; "Signal"]}
    ∧ (aligned df → aligned df').
Proof.
  intros Hc Hlen.
  destruct (calculate_indicators_columns df close Hc)
    as (df' & Hcalc & Hidx & HE & HS & HR & HM & HG & Hother).
  destruct (length_compute_macd close) as [Hl1 Hl2].
  assert (∀ c, c ∈ ["EMA"; "SMA"; "RSI"; "MACD"; "Signal"] →
            ∃ s, columns df' !! c = Some s ∧ length s = length (index df))
    as Hnew.
  { intros c Hin. rewrite <-Hlen.
    repeat (apply elem_of_cons in Hin as [->|Hin]).
    - eexists. split; [exact HE|]. apply length_ewm_mean.
    - eexists. split; [exact HS|]. apply length_rolling_mean.
    - eexists. split; [exact HR|]. apply length_compute_rsi.
    - eexists. split; [exact HM|]. exact Hl1.
    - eexists. split; [exact HG|]. exact Hl2.
    - by apply elem_of_nil in Hin. }
  exists df'. split; [exact Hcalc|]. split; [exact Hidx|].
  split; [|split; [exact Hother|split; [exact Hnew|split]]].
  - intros c Hin. apply Hother. intros Hin'.
    repeat (apply elem_of_cons in Hin as [->|Hin]);
      try (by apply elem_of_nil in Hin);
      repeat (apply elem_of_cons in Hin' as [?|Hin']; [done|]);
      by apply elem_of_nil in Hin'.
  - pose proof (calculate_indicators_eq df close Hc) as Heq.
    rewrite Hcalc in Heq. injection Heq as ->.
    unfold setitem. cbn [columns]. rewrite !dom_insert_L.
    apply set_eq. intros k. rewrite !elem_of_union, !elem_of_singleton. tauto.
  - intros Hal c s Hs.
    destruct (decide (c ∈ ["EMA"; "SMA"; "RSI"; "MACD"; "Signal"])) as [Hin|Hin].
    + destruct (Hnew c Hin) as (s' & Hs' & Hlen'). rewrite Hidx. congruence.
    + rewrite Hother in Hs by done. rewrite Hidx. by apply (Hal c).
Qed.

Lemma C10_witness :
  ∃ df', calculate_indicators frame_ohlcv = Some df'
    ∧ index df' = [0; 1]%Z
    ∧ columns df' !! "Volume" = Some [F 1000; F 1500]
    ∧ columns df' !! "Close" = Some [F 11; F 12].
Proof.
  destruct (C10_price_columns_unchanged frame_ohlcv [F 11; F 12])
    as (df' & Hcalc & Hidx & Hprice & _).
  - reflexivity.
  - reflexivity.
  - exists df'. split; [exact Hcalc|]. split; [exact Hidx|]. split.
    + rewrite (Hprice "Volume") by in_list. reflexivity.
    + rewrite (Hprice "Close") by in_list. reflexivity.
Defined.

(** * Further properties of the code *)

(** ** Columns and missing keys *)



(** X2: [calculate_indicators] raises exactly when the frame has no Close
    column; otherwise it returns a frame. *)
Theorem X2_calculate_indicators_key_error (df : DataFrame) :
  calculate_indicators df = None ↔ getitem df "Close" = None.
Proof.
  split.
  - intros Hnone. destruct (getitem df "Close") as [close|] eqn:Hc; [|done].
    by rewrite (calculate_indicators_eq df close Hc) in Hnone.
  - intros Hc. unfold calculate_indicators. by rewrite Hc.
Qed.

Lemma X2_witness : calculate_indicators (mkDF [0]%Z {["Open" := [F 1]]}) = None.
Proof. apply X2_calculate_indicators_key_error. reflexivity. Defined.

Lemma mapM_getitem_None (df : DataFrame) (l : list string) (c : string) :
  c ∈ l → columns df !! c = None → mapM (getitem df) l = None.
Proof.
  change (getitem df) with (λ c, columns df !! c).
  intros Hin Hc. induction Hin as [c l|c c' l Hin IH]; cbn [mapM].
  - by rewrite Hc.
  - rewrite IH by done. by destruct (columns df !! c').
Qed.

(** X3: [get_signals] raises when one of the six columns it reads is
    missing, whatever the rest of the frame holds. *)
Theorem X3_get_signals_key_error (df : DataFrame) (c : string) :
  c ∈ ["RSI"; "MACD"; "Signal"; "EMA"; "SMA"; "Close"] →
  columns df !! c = None → get_signals df = None.
Proof.
  intros Hin Hc. unfold get_signals, dropna.
  by rewrite (mapM_getitem_None df _ c Hin Hc).
Qed.

Lemma X3_witness : get_signals frame_10_30 = None.
Proof.
  apply (X3_get_signals_key_error frame_10_30 "RSI"); [in_list|reflexivity].
Defined.

(** ** The shape of a signal set *)

Lemma dom_signal_set (rsi macd ema sma : Signal) :
  dom (signal_set rsi macd ema sma) = {["RSI"; "MACD"; "EMA"; "SMA"]}.
Proof.
  unfold signal_set. rewrite !dom_insert_L, dom_singleton_L.
  apply set_eq. intros k. rewrite !elem_of_union, !elem_of_singleton. tauto.
Qed.

(** What [get_signals] returns on a frame that has the six columns: the
    default, or a set whose EMA and SMA entries are BUY or SELL. *)
Lemma get_signals_shape (df : DataFrame) :
  (∀ c, c ∈ ["RSI"; "MACD"; "Signal"; "EMA"; "SMA"; "Close"] →
        ∃ s, columns df !! c = Some s ∧ length s = length (index df)) →
  ∃ rsi macd ema sma,
    get_signals df = Some (signal_set rsi macd ema sma)
    ∧ ((rsi = HOLD ∧ macd = HOLD ∧ ema = HOLD ∧ sma = HOLD)
       ∨ (ema ≠ HOLD ∧ sma ≠ HOLD)).
Proof.
  intros Hcols. unfold get_signals. rewrite (dropna_indicators df Hcols).
  cbn [mbind option_bind]. unfold iloc_last, empty. cbn [index columns].
  set (mask := row_notna _ <$> seq 0 (length (index df))).
  case_bool_decide as Hemp.
  { exists HOLD, HOLD, HOLD, HOLD. split; [done|]. by left. }
  destruct (mask_select mask (index df)) as [|z zs] eqn:Hsel; [done|].
  clear Hemp. assert (z :: zs ≠ []) as Hemp by done. rewrite <-Hsel in Hemp.
  cbn [orb]. case_bool_decide.
  { exists HOLD, HOLD, HOLD, HOLD. split; [done|]. by left. }
  cbn [mbind option_bind].
  assert (∀ c, c ∈ ["RSI"; "MACD"; "Signal"; "EMA"; "SMA"; "Close"] →
    is_Some (omap last (mask_select mask <$> columns df) !! c)) as Hlk.
  { intros c Hc. destruct (Hcols c Hc) as (s & Hs & Hlen).
    rewrite lookup_omap, lookup_fmap, Hs. simpl.
    apply last_is_Some. intros Hnil. apply Hemp.
    apply length_zero_iff_nil.
    rewrite <-(length_mask_select mask s (index df)) by done.
    by rewrite Hnil. }
  destruct (Hlk "RSI") as [? ->]; [in_list|]. cbn [mbind option_bind].
  destruct (Hlk "MACD") as [? ->]; [in_list|]. cbn [mbind option_bind].
  destruct (Hlk "Signal") as [? ->]; [in_list|]. cbn [mbind option_bind].
  destruct (Hlk "Close") as [? ->]; [in_list|]. cbn [mbind option_bind].
  destruct (Hlk "EMA") as [? ->]; [in_list|]. cbn [mbind option_bind].
  destruct (Hlk "SMA") as [? ->]; [in_list|]. cbn [mbind option_bind].
  rewrite insert_empty. do 4 eexists. split; [reflexivity|].
  right. split; by case_match.
Qed.

(** X4: on a frame that has the six columns, one value per row each,
    [get_signals] raises nothing and returns a dictionary with exactly the
    keys RSI, MACD, EMA and SMA, so that at most 4 signals are BUY; its EMA
    or SMA entry is HOLD only in the default answer, where all four are. *)
Theorem X4_get_signals_four_keys (df : DataFrame) :
  (∀ c, c ∈ ["RSI"; "MACD"; "Signal"; "EMA"; "SMA"; "Close"] →
        ∃ s, columns df !! c = Some s ∧ length s = length (index df)) →
  ∃ signals, get_signals df = Some signals
    ∧ dom signals = {["RSI"; "MACD"; "EMA"; "SMA"]}
    ∧ (buy_count signals ≤ 4)%nat
    ∧ (signals !! "EMA" = Some HOLD ∨ signals !! "SMA" = Some HOLD →
       signals = signal_set HOLD HOLD HOLD HOLD).
Proof.
  intros Hcols.
  destruct (get_signals_shape df Hcols) as (r & m & e & s & Hsig & Hshape).
  exists (signal_set r m e s). split; [exact Hsig|].
  split; [apply dom_signal_set|]. split.
  - rewrite buy_count_signal_set.
    etrans; [apply length_filter|]. simpl. lia.
  - destruct (lookup_signal_set r m e s) as (_ & _ & -> & ->).
    destruct Hshape as [(-> & -> & -> & ->)|[He Hs]]; [done|].
    intros [[= ->]|[= ->]]; done.
Qed.

Lemma X4_witness :
  ∃ signals, get_signals frame_three_bars = Some signals
    ∧ dom signals = {["RSI"; "MACD"; "EMA"; "SMA"]}
    ∧ (buy_count signals ≤ 4)%nat.
Proof.
  destruct (X4_get_signals_four_keys frame_three_bars)
    as (signals & Hsig & Hdom & Hn & _).
  - frame_columns.
  - exists signals. repeat split; assumption.
Defined.

(** ** Series without a defined RSI *)

Lemma empty_false (df : DataFrame) (close : list float) :
  getitem df "Close" = Some close → (0 < length (index df))%nat →
  empty df = false.
Proof.
  intros Hc Hlen. unfold empty. rewrite !bool_decide_eq_false_2; [done| |].
  - intros He. unfold getitem in Hc. by rewrite He, lookup_empty in Hc.
  - intros Hnil. rewrite Hnil in Hlen. simpl in Hlen. lia.
Qed.

Lemma update_stock_data_eq (fetch : string → option DataFrame)
    (symbol : string) (df df' : DataFrame) (signals : gmap string Signal) :
  fetch symbol = Some df → empty df = false →
  calculate_indicators df = Some df' → get_signals df' = Some signals →
  update_stock_data fetch symbol
  = Some (inr (signals, overall (buy_count signals), df')).
Proof.
  intros Hf He Hcalc Hsig. unfold update_stock_data.
  rewrite Hf, He, Hcalc. cbn [mbind option_bind]. by rewrite Hsig.
Qed.

Lemma ticker_line_eq (fetch : string → option DataFrame)
    (symbol : string) (df df' : DataFrame) (signals : gmap string Signal) :
  fetch symbol = Some df → empty df = false →
  calculate_indicators df = Some df' → get_signals df' = Some signals →
  ticker_line fetch symbol
  = if decide (3 ≤ buy_count signals)%nat
    then Some (symbol +:+ ": " +:+ pretty (buy_count signals)
               +:+ "/4 indicators say BUY")
    else None.
Proof.
  intros Hf He Hcalc Hsig. unfold ticker_line, ticker_buy_count, frame_buy_count.
  rewrite Hf. cbn [mbind option_bind]. rewrite He, Hcalc.
  cbn [mbind option_bind]. by rewrite Hsig.
Qed.

Lemma all_hold_overall :
  buy_count (signal_set HOLD HOLD HOLD HOLD) = 0%nat
  ∧ overall (buy_count (signal_set HOLD HOLD HOLD HOLD)) = SELL.
Proof. split; vm_compute; reflexivity. Qed.

(** A frame of finite closes on which no bar past warm-up has a gain or a
    loss in its window gets the default signals. *)
Lemma no_rsi_signals (df : DataFrame) (cs : list Qc) :
  getitem df "Close" = Some (Fin <$> cs) → length (index df) = length cs →
  (∀ t, (14 ≤ t < length cs)%nat →
        spec_avg_gain cs 14 t = 0 ∧ spec_avg_loss cs 14 t = 0) →
  ∃ df', calculate_indicators df = Some df'
    ∧ get_signals df' = Some (signal_set HOLD HOLD HOLD HOLD).
Proof.
  intros Hc Hidx Hflat.
  destruct (calculate_indicators_columns df _ Hc)
    as (df' & Hcalc & Hidx' & _ & _ & HR & _).
  exists df'. split; [exact Hcalc|].
  apply get_signals_none.
  - apply (indicator_columns_aligned df df' (Fin <$> cs));
      [exact Hc | by rewrite length_fmap | exact Hcalc].
  - intros j Hj Hrow. rewrite Hidx', Hidx in Hj.
    specialize (Hrow "RSI" (list_elem_of_here _ _)).
    rewrite (cell_lookup df' "RSI" _ j _ HR
               (lookup_compute_rsi cs 14 j ltac:(lia) Hj)) in Hrow.
    case_decide as Hj14; [done|].
    destruct (Hflat j) as [Hg Hl]; [lia|].
    rewrite Hg, Hl in Hrow. done.
Qed.

(** X5: with fewer than 15 bars no row has a defined RSI: the four labels
    are HOLD, yet the overall recommendation sent to the window is SELL (no
    BUY counts as at most one), and the scan does not list the ticker. *)
Theorem X5_short_history_hold_but_sell
    (fetch : string → option DataFrame) (symbol : string)
    (df : DataFrame) (cs : list Qc) :
  fetch symbol = Some df →
  getitem df "Close" = Some (Fin <$> cs) → length (index df) = length cs →
  (0 < length cs < 15)%nat →
  ∃ df', calculate_indicators df = Some df'
    ∧ get_signals df' = Some (signal_set HOLD HOLD HOLD HOLD)
    ∧ update_stock_data fetch symbol
      = Some (inr (signal_set HOLD HOLD HOLD HOLD, SELL, df'))
    ∧ ticker_line fetch symbol = None.
Proof.
  intros Hf Hc Hidx Hlen.
  destruct (no_rsi_signals df cs Hc Hidx) as (df' & Hcalc & Hsig); [lia|].
  assert (empty df = false) as He by (apply (empty_false df _ Hc); lia).
  destruct all_hold_overall as [Hn Hov].
  exists df'. split; [exact Hcalc|]. split; [exact Hsig|]. split.
  - rewrite (update_stock_data_eq fetch symbol df df' _ Hf He Hcalc Hsig).
    by rewrite Hov.
  - rewrite (ticker_line_eq fetch symbol df df' _ Hf He Hcalc Hsig).
    by rewrite Hn.
Qed.

Lemma X5_witness :
  ∃ df', calculate_indicators frame_ohlcv = Some df'
    ∧ update_stock_data (λ _, Some frame_ohlcv) "AAPL"
      = Some (inr (signal_set HOLD HOLD HOLD HOLD, SELL, df')).
Proof.
  destruct (X5_short_history_hold_but_sell (λ _, Some frame_ohlcv) "AAPL"
              frame_ohlcv [Qz 11; Qz 12] eq_refl eq_refl eq_refl)
    as (df' & Hcalc & _ & Hupd & _).
  - simpl. lia.
  - exists df'. split; [exact Hcalc | exact Hupd].
Defined.

Lemma Qc_sum_zero (l : list Qc) : Forall (λ x, x = 0) l → Qc_sum l = 0.
Proof.
  induction 1 as [|x l -> _ IH]; [done|]. simpl. rewrite IH. ring.
Qed.

Lemma price_replicate (n k : nat) (c : Qc) :
  (k < n)%nat → price (replicate n c) k = c.
Proof.
  intros Hk. apply price_lookup. by apply lookup_replicate_2.
Qed.

(** X6: on a constant series, of any length, RSI is undefined at every bar
    (0/0), so the four labels are the default HOLD and the overall
    recommendation is SELL. *)
Theorem X6_flat_series_default
    (fetch : string → option DataFrame) (symbol : string)
    (df : DataFrame) (c : Qc) (n : nat) :
  fetch symbol = Some df →
  getitem df "Close" = Some (Fin <$> replicate n c) →
  length (index df) = n → (0 < n)%nat →
  ∃ df', calculate_indicators df = Some df'
    ∧ (∀ t, (t < n)%nat → cell df' "RSI" t = NaN)
    ∧ get_signals df' = Some (signal_set HOLD HOLD HOLD HOLD)
    ∧ update_stock_data fetch symbol
      = Some (inr (signal_set HOLD HOLD HOLD HOLD, SELL, df')).
Proof.
  intros Hf Hc Hidx Hn.
  assert (∀ t, (14 ≤ t < length (replicate n c))%nat →
    spec_avg_gain (replicate n c) 14 t = 0
    ∧ spec_avg_loss (replicate n c) 14 t = 0) as Hflat.
  { intros t Ht. rewrite length_replicate in Ht.
    assert (∀ k, k ∈ seq (S t - 14) 14 → spec_delta (replicate n c) k = 0) as Hd.
    { intros k [Hk1 Hk2]%elem_of_seq. unfold spec_delta.
      rewrite !price_replicate by lia. ring. }
    unfold spec_avg_gain, spec_avg_loss.
    rewrite !Qc_sum_zero; [split; apply Qcmult_0_l|..];
      apply Forall_fmap, Forall_forall; intros k Hk; simpl;
      rewrite (Hd k Hk); by vm_compute. }
  destruct (no_rsi_signals df (replicate n c) Hc) as (df' & Hcalc & Hsig);
    [by rewrite length_replicate|exact Hflat|].
  assert (empty df = false) as He by (apply (empty_false df _ Hc); lia).
  destruct all_hold_overall as [_ Hov].
  exists df'. split; [exact Hcalc|]. split; [|split; [exact Hsig|]].
  - intros t Ht.
    destruct (calculate_indicators_columns df _ Hc)
      as (df'' & Hcalc' & _ & _ & _ & HR & _).
    rewrite Hcalc in Hcalc'. injection Hcalc' as <-.
    apply (cell_lookup _ _ _ _ _ HR).
    rewrite lookup_compute_rsi by (rewrite ?length_replicate; lia).
    f_equal. case_decide as Ht14; [done|].
    destruct (Hflat t) as [-> ->]; [rewrite length_replicate; lia|]. done.
  - rewrite (update_stock_data_eq fetch symbol df df' _ Hf He Hcalc Hsig).
    by rewrite Hov.
Qed.

Lemma X6_witness :
  ∃ df', calculate_indicators frame_flat = Some df'
    ∧ get_signals df' = Some (signal_set HOLD HOLD HOLD HOLD).
Proof.
  destruct (X6_flat_series_default (λ _, Some frame_flat) "AAPL"
              frame_flat (Qz 7) 20)
    as (df' & Hcalc & _ & Hsig & _).
  - reflexivity.
  - reflexivity.
  - reflexivity.
  - lia.
  - exists df'. split; [exact Hcalc | exact Hsig].
Defined.

(** ** Strictly monotone series *)



















(** ** Steady trends *)





















(** ** The scan *)

Lemma frame_buy_count_le_4 (df : DataFrame) (n : nat) :
  price_frame df → frame_buy_count df = Some n → (n ≤ 4)%nat.
Proof.
  intros (close & Hc & Hlen) Hn. unfold frame_buy_count in Hn.
  destruct (calculate_indicators df) as [df'|] eqn:Hcalc; [|done].
  cbn [mbind option_bind] in Hn.
  destruct (get_signals_shape df') as (r & m & e & s & Hsig & _).
  { by apply (indicator_columns_aligned df df' close). }
  rewrite Hsig in Hn. cbn [mbind option_bind] in Hn.
  apply (inj Some) in Hn. rewrite <-Hn, buy_count_signal_set.
  etrans; [apply length_filter|]. simpl. lia.
Qed.

Lemma ticker_line_cases (fetch : string → option DataFrame) (s line : string) :
  (∀ df, fetch s = Some df → empty df = false → price_frame df) →
  ticker_line fetch s = Some line →
  line = s +:+ ": 3/4 indicators say BUY"
  ∨ line = s +:+ ": 4/4 indicators say BUY".
Proof.
  intros Hwf Hline. unfold ticker_line in Hline.
  destruct (ticker_buy_count fetch s) as [n|] eqn:Hn; [|done].
  cbn [mbind option_bind] in Hline. case_decide as Hge; [|done].
  injection Hline as <-.
  assert (n ≤ 4)%nat as Hle.
  { unfold ticker_buy_count in Hn. destruct (fetch s) as [df|] eqn:Hf; [|done].
    cbn [mbind option_bind] in Hn. destruct (empty df) eqn:He; [done|].
    by apply (frame_buy_count_le_4 df n (Hwf df eq_refl He)). }
  assert (n = 3 ∨ n = 4)%nat as [-> | ->] by lia; [by left|by right].
Qed.

(** X10: on fetched frames that carry a Close column, the scan records at
    most one line per ticker of the watch-list, and each line reads
    ["<ticker>: 3/4 indicators say BUY"] or
    ["<ticker>: 4/4 indicators say BUY"] for a ticker of the list. *)
Theorem X10_scan_lines_three_or_four
    (fetch : string → option DataFrame) (symbols : list string) :
  (∀ s df, s ∈ symbols → fetch s = Some df → empty df = false →
           price_frame df) →
  ∃ matches, scan_loop fetch [] symbols = Some matches
    ∧ (length matches ≤ length symbols)%nat
    ∧ ∀ line, line ∈ matches →
        ∃ s, s ∈ symbols
             ∧ (line = s +:+ ": 3/4 indicators say BUY"
                ∨ line = s +:+ ": 4/4 indicators say BUY").
Proof.
  intros Hwf. exists (omap (ticker_line fetch) symbols).
  pose proof (scan_loop_lines fetch symbols [] Hwf) as Hloop.
  rewrite app_nil_l in Hloop. split; [exact Hloop|]. split.
  - clear. induction symbols as [|s l IH]; [done|].
    cbn [omap list_omap]. destruct (ticker_line fetch s); simpl in *; lia.
  - intros line (s & Hin & Hline)%list_elem_of_omap. exists s.
    split; [exact Hin|]. apply (ticker_line_cases fetch s line); [|exact Hline].
    intros df. by apply Hwf.
Qed.

Lemma X10_witness :
  ∃ matches,
    scan_loop sample_fetch [] ["ZZZZ"; "UP"; "NONE"; "DOWN"] = Some matches
    ∧ (length matches ≤ 4)%nat.
Proof.
  destruct (X10_scan_lines_three_or_four sample_fetch
              ["ZZZZ"; "UP"; "NONE"; "DOWN"])
    as (matches & Hloop & Hlen & _).
  - intros s df _. apply sample_fetch_frames.
  - exists matches. split; [exact Hloop | exact Hlen].
Defined.

Lemma append_nonempty (s t : string) :
  t ≠ EmptyString → s +:+ t ≠ EmptyString.
Proof. intros Ht. destruct s; [done|]. simpl. discriminate. Qed.

Lemma last_char_app (s t : string) :
  t ≠ EmptyString → last_char (s +:+ t) = last_char t.
Proof.
  intros Ht. induction s as [|c s IH]; [done|].
  change (String c s +:+ t) with (String c (s +:+ t)).
  pose proof (append_nonempty s t Ht) as Hne.
  cbn [last_char]. rewrite <-IH. by destruct (s +:+ t).
Qed.

Lemma last_char_line (s : string) (n : string) :
  last_char (s +:+ ": " +:+ n +:+ "/4 indicators say BUY") = Some char_Y.
Proof.
  assert ("/4 indicators say BUY" ≠ EmptyString) as H1 by discriminate.
  pose proof (append_nonempty n _ H1) as H2.
  pose proof (append_nonempty ": " _ H2) as H3.
  rewrite (last_char_app s _ H3), (last_char_app ": " _ H2),
    (last_char_app n _ H1).
  reflexivity.
Qed.

Lemma last_char_concat (sep : string) (l : list string) :
  l ≠ [] → Forall (λ x, last_char x = Some char_Y) l →
  last_char (String.concat sep l) = Some char_Y.
Proof.
  intros Hne Hall. induction Hall as [|x l Hx Hl IH]; [done|].
  destruct l as [|y l]; [done|].
  change (String.concat sep (x :: y :: l))
    with (x +:+ sep +:+ String.concat sep (y :: l)).
  specialize (IH ltac:(done)).
  assert (String.concat sep (y :: l) ≠ EmptyString) as Hc
    by (intros Hz; by rewrite Hz in IH).
  rewrite last_char_app.
  - by rewrite last_char_app.
  - destruct sep; [done|]. done.
Qed.

Lemma ticker_line_last_char (fetch : string → option DataFrame) (s line : string) :
  ticker_line fetch s = Some line → last_char line = Some char_Y.
Proof.
  unfold ticker_line. destruct (ticker_buy_count fetch s) as [n|]; [|done].
  cbn [mbind option_bind]. case_decide; [|done]. intros [= <-].
  apply last_char_line.
Qed.

(** X11: on fetched frames that carry a Close column, the report is the
    sentence ["No strong BUY signals found."] exactly when no ticker of the
    watch-list reaches three BUY signals: a report with lines ends in
    ["BUY"] and cannot be taken for it. *)
Theorem X11_sentinel_iff_no_match
    (fetch : string → option DataFrame) (symbols : list string) :
  (∀ s df, s ∈ symbols → fetch s = Some df → empty df = false →
           price_frame df) →
  scan_list fetch symbols = Some "No strong BUY signals found."
  ↔ ∀ s, s ∈ symbols → ticker_line fetch s = None.
Proof.
  intros Hwf. unfold scan_list.
  rewrite (scan_loop_lines fetch symbols [] Hwf), app_nil_l.
  cbn [mbind option_bind]. split.
  - intros Hrep s Hin.
    destruct (ticker_line fetch s) as [line|] eqn:Hline; [|done]. exfalso.
    assert (line ∈ omap (ticker_line fetch) symbols) as Hmem
      by (apply list_elem_of_omap; by exists s).
    destruct (omap (ticker_line fetch) symbols) as [|x l] eqn:Hm;
      [by apply elem_of_nil in Hmem|].
    assert (String.concat newline (x :: l) = "No strong BUY signals found.")
      as Hrep' by (by injection Hrep).
    assert (last_char (String.concat newline (x :: l)) = Some char_Y) as Hy.
    { apply last_char_concat; [done|]. rewrite <-Hm.
      apply Forall_forall. intros y (s' & _ & Hy)%list_elem_of_omap.
      by apply (ticker_line_last_char fetch s'). }
    rewrite Hrep' in Hy. vm_compute in Hy. discriminate Hy.
  - intros Hnone.
    assert (omap (ticker_line fetch) symbols = []) as ->; [|done].
    apply elem_of_nil_inv. intros line (s & Hin & Hline)%list_elem_of_omap.
    by rewrite (Hnone s Hin) in Hline.
Qed.

Lemma X11_witness :
  scan_list sample_fetch ["ZZZZ"; "NONE"; "DOWN"]
  = Some "No strong BUY signals found.".
Proof.
  apply X11_sentinel_iff_no_match.
  - intros s df _. apply sample_fetch_frames.
  - intros s Hin. repeat (apply elem_of_cons in Hin as [->|Hin]);
      [vm_compute; reflexivity..|by apply elem_of_nil in Hin].
Defined.

Lemma scan_body_acc (fetch : string → option DataFrame)
    (acc : list string) (s : string) :
  scan_body fetch acc s = (λ r, acc ++ r) <$> scan_body fetch [] s.
Proof.
  unfold scan_body. destruct (fetch s) as [df|]; [|simpl; by rewrite app_nil_r].
  destruct (empty df); [simpl; by rewrite app_nil_r|].
  destruct (calculate_indicators df) as [df'|]; [|done].
  cbn [mbind option_bind]. destruct (get_signals df') as [signals|]; [|done].
  cbn [mbind option_bind]. case_decide; simpl; [done|by rewrite app_nil_r].
Qed.

Lemma scan_loop_acc (fetch : string → option DataFrame)
    (acc l : list string) :
  scan_loop fetch acc l = (λ r, acc ++ r) <$> scan_loop fetch [] l.
Proof.
  revert acc. induction l as [|s l IH]; intros acc.
  - simpl. by rewrite app_nil_r.
  - cbn [scan_loop]. rewrite (scan_body_acc fetch acc s).
    destruct (scan_body fetch [] s) as [r|]; [|done].
    cbn [fmap option_fmap option_map mbind option_bind].
    rewrite (IH (acc ++ r)), (IH r).
    destruct (scan_loop fetch [] l) as [r'|]; [|done].
    simpl. by rewrite app_assoc.
Qed.

(** X12: what the scan finds for a ticker does not depend on what it found
    before: scanning a watch-list in two parts and appending the results to
    the accumulator gives the scan of the whole list, and an uncaught
    exception in either part is one of the whole. *)
Theorem X12_scan_loop_app (fetch : string → option DataFrame)
    (acc l1 l2 : list string) :
  scan_loop fetch acc (l1 ++ l2)
  = r1 ← scan_loop fetch [] l1; r2 ← scan_loop fetch [] l2;
    Some (acc ++ r1 ++ r2).
Proof.
  revert acc. induction l1 as [|s l1 IH]; intros acc.
  - cbn [app scan_loop mbind option_bind]. rewrite scan_loop_acc.
    by destruct (scan_loop fetch [] l2).
  - cbn [app scan_loop]. rewrite (scan_body_acc fetch acc s).
    destruct (scan_body fetch [] s) as [r|]; [|done].
    cbn [fmap option_fmap option_map mbind option_bind].
    rewrite (IH (acc ++ r)), (scan_loop_acc fetch r l1).
    destruct (scan_loop fetch [] l1) as [r1|]; [|done].
    cbn [fmap option_fmap option_map mbind option_bind].
    destruct (scan_loop fetch [] l2) as [r2|]; [|done].
    cbn [mbind option_bind]. by rewrite !app_assoc.
Qed.

(** X13: a fetched frame that has rows but no Close column makes
    [calculate_indicators] raise; nothing catches it, so the whole scan is
    lost, whatever the other tickers returned. *)
Theorem X13_scan_aborts_without_close
    (fetch : string → option DataFrame) (symbols : list string)
    (s : string) (df : DataFrame) :
  s ∈ symbols → fetch s = Some df → empty df = false →
  getitem df "Close" = None →
  scan_list fetch symbols = None.
Proof.
  intros Hin Hf He Hc. unfold scan_list.
  assert (scan_loop fetch [] symbols = None) as ->; [|done].
  generalize (@nil string).
  induction Hin as [s l|s s' l Hin IH]; intros acc; cbn [scan_loop].
  - unfold scan_body, calculate_indicators. by rewrite Hf, He, Hc.
  - destruct (scan_body fetch acc s') as [acc'|]; [|done].
    cbn [mbind option_bind]. by apply IH.
Qed.

Lemma X13_witness :
  scan_list (λ s, if decide (s = "BAD") then Some (mkDF [0]%Z {["Open" := [F 1]]})
                  else sample_fetch s) ["UP"; "BAD"; "DOWN"] = None.
Proof.
  apply (X13_scan_aborts_without_close _ _ "BAD" (mkDF [0]%Z {["Open" := [F 1]]})).
  - in_list.
  - reflexivity.
  - reflexivity.
  - reflexivity.
Defined.

(** X14: loading a ticker alone and scanning it agree: on a fetched frame
    that carries a Close column the loader raises nothing and sends the
    signals, the recommendation computed from their count of BUY and the
    frame with its indicators, and the scan lists the ticker exactly when
    that recommendation is BUY; on a failed fetch or a frame without rows
    the loader sends the error event only and the scan lists nothing. *)
Theorem X14_load_and_scan_agree
    (fetch : string → option DataFrame) (symbol : string) :
  (∀ df, fetch symbol = Some df → empty df = false → price_frame df) →
  (fetch symbol = None ∨ (∃ df, fetch symbol = Some df ∧ empty df = true) →
   update_stock_data fetch symbol = Some (inl ())
   ∧ ticker_line fetch symbol = None)
  ∧ (∀ df, fetch symbol = Some df → empty df = false →
     ∃ df' signals,
       calculate_indicators df = Some df' ∧ get_signals df' = Some signals
       ∧ update_stock_data fetch symbol
         = Some (inr (signals, overall (buy_count signals), df'))
       ∧ (overall (buy_count signals) = BUY
          ↔ is_Some (ticker_line fetch symbol))).
Proof.
  intros Hwf. split.
  - intros [Hf | (df & Hf & He)];
      unfold update_stock_data, ticker_line, ticker_buy_count; rewrite Hf;
      cbn [mbind option_bind]; [done|by rewrite He].
  - intros df Hf He. destruct (Hwf df Hf He) as (close & Hc & Hlen).
    destruct (calculate_indicators_columns df close Hc) as (df' & Hcalc & _).
    destruct (get_signals_total df') as [signals Hsig].
    { by apply (indicator_columns_aligned df df' close). }
    exists df', signals. split; [exact Hcalc|]. split; [exact Hsig|]. split.
    + by apply (update_stock_data_eq fetch symbol df).
    + rewrite (ticker_line_eq fetch symbol df df' signals Hf He Hcalc Hsig).
      unfold overall. generalize (buy_count signals). intros n.
      repeat case_decide; split; try done; try lia;
        intros [? [=]].
Qed.

Lemma X14_witness :
  (update_stock_data sample_fetch "ZZZZ" = Some (inl ())
   ∧ ticker_line sample_fetch "ZZZZ" = None)
  ∧ ∃ df' signals,
      update_stock_data sample_fetch "UP"
      = Some (inr (signals, overall (buy_count signals), df'))
      ∧ (overall (buy_count signals) = BUY
         ↔ is_Some (ticker_line sample_fetch "UP")).
Proof.
  split.
  - apply (X14_load_and_scan_agree sample_fetch "ZZZZ").
    + intros df. apply sample_fetch_frames.
    + left. reflexivity.
  - destruct (X14_load_and_scan_agree sample_fetch "UP") as [_ Hload].
    + intros df. apply sample_fetch_frames.
    + destruct (Hload frame_10_30 eq_refl eq_refl)
        as (df' & signals & _ & _ & Hupd & Hiff).
      exists df', signals. split; [exact Hupd | exact Hiff].
Defined.

(** ** The first script *)







(** ** Changing the unit of the prices *)













(** ** The bar the signals come from *)






















(** ** What the signals do not read *)

Lemma mapM_ext_elem {A B} (f g : A → option B) (l : list A) :
  (∀ x, x ∈ l → f x = g x) → mapM f l = mapM g l.
Proof.
  induction l as [|x l IH]; intros Hl; [done|].
  cbn [mapM]. rewrite (Hl x) by apply list_elem_of_here.
  rewrite IH by (intros y Hy; by apply Hl, list_elem_of_further). done.
Qed.

Lemma mapM_lookup_Some {A B} (f : A → option B) (l : list A) (k : list B) (x : A) :
  mapM f l = Some k → x ∈ l → is_Some (f x).
Proof.
  intros Hm Hin. revert k Hm.
  induction Hin as [x l|x y l Hin IH]; intros k Hm; cbn [mapM] in Hm.
  - destruct (f x); [by eexists|done].
  - destruct (f y); [|done]. cbn [mbind option_bind] in Hm.
    destruct (mapM f l) as [k'|] eqn:Hk; [|done]. by apply (IH k').
Qed.

(** [get_signals] reads the six columns and the number of rows only. *)
Lemma get_signals_ext (df1 df2 : DataFrame) :
  (∀ c, c ∈ ["RSI"; "MACD"; "Signal"; "EMA"; "SMA"; "Close"] →
        columns df1 !! c = columns df2 !! c) →
  length (index df1) = length (index df2) →
  get_signals df1 = get_signals df2.
Proof.
  intros Hcols Hlen. unfold get_signals, dropna.
  rewrite (mapM_ext_elem (getitem df1) (getitem df2)) by exact Hcols.
  destruct (mapM (getitem df2) _) as [cols|] eqn:Hm; [|done].
  cbn [mbind option_bind]. rewrite Hlen.
  set (mask := row_notna cols <$> seq 0 (length (index df2))).
  assert (∀ df, is_Some (columns df !! "RSI") →
    bool_decide (mask_select mask <$> columns df = ∅) = false) as Hne.
  { intros df [s Hs]. apply bool_decide_eq_false_2.
    by apply (fmap_nonempty _ _ "RSI" s). }
  assert (is_Some (columns df2 !! "RSI")) as HR2
    by (apply (mapM_lookup_Some _ _ _ "RSI" Hm); in_list).
  assert (is_Some (columns df1 !! "RSI")) as HR1
    by (rewrite Hcols; [done|in_list]).
  unfold empty, iloc_last. cbn [index columns].
  rewrite (Hne df1 HR1), (Hne df2 HR2), !orb_false_r.
  pose proof (length_mask_select mask (index df1) (index df2) Hlen) as Hsel.
  assert (∀ c, c ∈ ["RSI"; "MACD"; "Signal"; "EMA"; "SMA"; "Close"] →
    omap last (mask_select mask <$> columns df1) !! c
    = omap last (mask_select mask <$> columns df2) !! c) as Hlk.
  { intros c Hc. by rewrite !lookup_omap, !lookup_fmap, (Hcols c Hc). }
  destruct (mask_select mask (index df1)) as [|z1 l1],
           (mask_select mask (index df2)) as [|z2 l2]; try done.
  rewrite !bool_decide_eq_false_2 by done. cbn [mbind option_bind].
  rewrite (Hlk "RSI") by in_list.
  destruct (_ !! "RSI"); [|done]. cbn [mbind option_bind].
  rewrite (Hlk "MACD") by in_list.
  destruct (_ !! "MACD"); [|done]. cbn [mbind option_bind].
  rewrite (Hlk "Signal") by in_list.
  destruct (_ !! "Signal"); [|done]. cbn [mbind option_bind].
  rewrite (Hlk "Close") by in_list.
  destruct (_ !! "Close"); [|done]. cbn [mbind option_bind].
  rewrite (Hlk "EMA") by in_list.
  destruct (_ !! "EMA"); [|done]. cbn [mbind option_bind].
  rewrite (Hlk "SMA") by in_list.
  by destruct (_ !! "SMA").
Qed.

(** X20: the signals of a fetched frame depend on its Close column and on
    its number of rows only: Open, High, Low, Volume, the timestamps and
    any indicator column already there play no part, and an exception on
    one frame is one on the other. *)
Theorem X20_signals_read_close_only (df1 df2 : DataFrame) :
  getitem df1 "Close" = getitem df2 "Close" →
  length (index df1) = length (index df2) →
  calculate_indicators df1 ≫= get_signals
  = calculate_indicators df2 ≫= get_signals.
Proof.
  intros Hc Hlen.
  destruct (getitem df2 "Close") as [close|] eqn:Hc2.
  - destruct (calculate_indicators_columns df1 close Hc)
      as (df1' & -> & Hi1 & HE1 & HS1 & HR1 & HM1 & HG1 & Ho1).
    destruct (calculate_indicators_columns df2 close Hc2)
      as (df2' & -> & Hi2 & HE2 & HS2 & HR2 & HM2 & HG2 & Ho2).
    cbn [mbind option_bind]. apply get_signals_ext; [|by rewrite Hi1, Hi2].
    intros c Hin. repeat (apply elem_of_cons in Hin as [->|Hin]).
    + by rewrite HR1, HR2.
    + by rewrite HM1, HM2.
    + by rewrite HG1, HG2.
    + by rewrite HE1, HE2.
    + by rewrite HS1, HS2.
    + rewrite Ho1, Ho2; [by rewrite <-Hc2 in Hc| |];
        intros Hin'; repeat (apply elem_of_cons in Hin' as [?|Hin']; [done|]);
        by apply elem_of_nil in Hin'.
    + by apply elem_of_nil in Hin.
  - unfold calculate_indicators. by rewrite Hc, Hc2.
Qed.

Lemma X20_witness :
  calculate_indicators frame_ohlcv ≫= get_signals
  = calculate_indicators (mkDF [7; 9]%Z {["Close" := [F 11; F 12]]})
    ≫= get_signals.
Proof. apply X20_signals_read_close_only; reflexivity. Defined.

(** X21: running [calculate_indicators] again on its own result changes
    nothing: the five columns are recomputed from the same closes. *)
Theorem X21_calculate_indicators_idempotent (df df' : DataFrame) :
  calculate_indicators df = Some df' →
  calculate_indicators df' = Some df'.
Proof.
  intros Hcalc.
  destruct (getitem df "Close") as [close|] eqn:Hc.
  2:{ unfold calculate_indicators in Hcalc. by rewrite Hc in Hcalc. }
  destruct (calculate_indicators_columns df close Hc)
    as (df'' & Hcalc' & Hidx & HE & HS & HR & HM & HG & Hother).
  rewrite Hcalc in Hcalc'. injection Hcalc' as <-.
  assert (getitem df' "Close" = Some close) as Hc'.
  { unfold getitem. rewrite Hother; [done|]. intros Hin.
    repeat (apply elem_of_cons in Hin as [?|Hin]; [done|]).
    by apply elem_of_nil in Hin. }
  rewrite (calculate_indicators_eq df' close Hc'). f_equal.
  destruct df' as [idx cols]. unfold setitem. cbn [index columns] in *.
  f_equal. apply map_eq. intros c.
  destruct (decide (c = "Signal")) as [->|?];
    [by rewrite lookup_insert_eq|rewrite lookup_insert_ne by done].
  destruct (decide (c = "MACD")) as [->|?];
    [by rewrite lookup_insert_eq|rewrite lookup_insert_ne by done].
  destruct (decide (c = "RSI")) as [->|?];
    [by rewrite lookup_insert_eq|rewrite lookup_insert_ne by done].
  destruct (decide (c = "SMA")) as [->|?];
    [by rewrite lookup_insert_eq|rewrite lookup_insert_ne by done].
  destruct (decide (c = "EMA")) as [->|?];
    [by rewrite lookup_insert_eq|rewrite lookup_insert_ne by done].
  done.
Qed.

Lemma X21_witness :
  ∃ df', calculate_indicators frame_ohlcv = Some df'
         ∧ calculate_indicators df' = Some df'.
Proof.
  destruct (calculate_indicators_columns frame_ohlcv [F 11; F 12] eq_refl)
    as (df' & Hcalc & _).
  exists df'. split; [exact Hcalc|].
  exact (X21_calculate_indicators_idempotent frame_ohlcv df' Hcalc).
Defined.
